(** * The schema validation library (schema.ts), embedded in Rocq

    The library builds validators for strings, numbers, booleans, dates,
    arrays, objects, unions and literals, and runs them on untyped input.
    This file embeds the run-time values, the validator classes and their
    [validate] methods, and proves the properties of the design document
    against them. *)

From Stdlib Require Import List String Ascii Bool Arith ZArith QArith Qabs Lia.
From Stdlib Require Import DecimalString Permutation.
Import ListNotations.

Set Warnings "-register-all".

Local Open Scope list_scope.
Local Open Scope string_scope.

(** ** JavaScript numbers

    A number is NaN, an infinity or a finite value.  Every finite double is a
    rational, and the operations the validators use on numbers ([<], [>],
    [<=], [isNaN], [Number.isInteger], [!==]) are exact functions of that
    rational; [Finite 0] stands for both zeros, which none of these
    operations tells apart. *)

Inductive JSNumber : Type :=
| NaN
| Infinity (negative : bool)
| Finite (q : Q).

Definition num_of_Z (z : Z) : JSNumber := Finite (inject_Z z).
Definition num_of_nat (n : nat) : JSNumber := num_of_Z (Z.of_nat n).

(** [isNaN(value)] on a number. *)
Definition isNaN (n : JSNumber) : bool :=
  match n with NaN => true | _ => false end.

(** [a < b]: false as soon as one side is NaN. *)
Definition num_lt (a b : JSNumber) : bool :=
  match a, b with
  | NaN, _ | _, NaN => false
  | Infinity true, Infinity true => false
  | Infinity true, _ => true
  | _, Infinity true => false
  | Infinity false, _ => false
  | Finite _, Infinity false => true
  | Finite p, Finite q => match (p ?= q)%Q with Lt => true | _ => false end
  end.

(** [a > b]. *)
Definition num_gt (a b : JSNumber) : bool := num_lt b a.

(** [a <= b]: false as soon as one side is NaN. *)
Definition num_le (a b : JSNumber) : bool :=
  match a, b with
  | NaN, _ | _, NaN => false
  | Infinity true, _ => true
  | _, Infinity false => true
  | Infinity false, _ => false
  | Finite _, Infinity true => false
  | Finite p, Finite q => match (p ?= q)%Q with Gt => false | _ => true end
  end.

(** [a === b] on numbers: NaN differs from itself. *)
Definition num_strict_eq (a b : JSNumber) : bool :=
  match a, b with
  | Infinity s, Infinity t => Bool.eqb s t
  | Finite p, Finite q => Qeq_bool p q
  | _, _ => false
  end.

(** [Number.isInteger]: a finite value with no fractional part. *)
Definition Number_isInteger (n : JSNumber) : bool :=
  match n with
  | Finite q => (Qnum q mod Zpos (Qden q) =? 0)%Z
  | _ => false
  end.

(** ** Run-time values

    A string is the sequence of its code units, so that [String.length] is
    its [length].  An array is the list of what indexing yields (a hole reads
    as [undefined]).  An object is a plain object, one whose prototype is
    [Object.prototype], as an object literal and [JSON.parse] make them: it
    is the list of its own properties, in the order of [Object.entries].  A
    [Date] carries its time value, [None] when the date is invalid, and has
    no property of its own. *)

Inductive OtherType : Type := TFunction | TSymbol | TBigint.

Inductive Value : Type :=
| VUndefined
| VNull
| VBool (b : bool)
| VNum (n : JSNumber)
| VStr (s : string)
| VDate (time : option Z)
| VArr (items : list Value)
| VObj (props : list (string * Value))
| VOther (ty : OtherType) (id : nat).

Definition typeof (v : Value) : string :=
  match v with
  | VUndefined => "undefined"
  | VBool _ => "boolean"
  | VNum _ => "number"
  | VStr _ => "string"
  | VNull | VDate _ | VArr _ | VObj _ => "object"
  | VOther TFunction _ => "function"
  | VOther TSymbol _ => "symbol"
  | VOther TBigint _ => "bigint"
  end.

Definition Array_isArray (v : Value) : bool :=
  match v with VArr _ => true | _ => false end.

(** [value !== undefined]. *)
Definition is_defined (v : Value) : bool :=
  match v with VUndefined => false | _ => true end.

(** ** The platform

    What the library takes from the JavaScript run time and does not define:
    the decimal form of a number that is not a small integer, the parser
    behind [new Date(string)], [Date.prototype.toISOString], and what a read
    finds on [Object.prototype] and on [Date.prototype] under a key
    ([undefined] when they hold nothing under it). *)

Class Platform : Type := {
  (** digits of a finite number that is not an integer up to 2^53 *)
  shortest_decimal : Q -> string;
  (** time value of [new Date(s)]; [None] is the NaN of an invalid date *)
  Date_parse : string -> option Z;
  (** ISO form of a valid time value *)
  Date_toISOString : Z -> string;
  (** [Object.prototype[key]], read on a plain object *)
  Object_prototype : string -> Value;
  (** [Date.prototype[key]], read on a date, [Object.prototype] behind it *)
  Date_prototype : string -> Value
}.

Definition nat_toString (n : nat) : string :=
  NilZero.string_of_uint (Nat.to_uint n).

Definition Z_toString (z : Z) : string :=
  NilZero.string_of_int (Z.to_int z).

(** [String(n)] as a template literal computes it.  The digits are those of
    the shortest decimal that reads back as the number: for an integer up to
    2^53 these are the digits of the integer, and the rest is left to the
    platform. *)
Definition Number_toString {P : Platform} (n : JSNumber) : string :=
  match n with
  | NaN => "NaN"
  | Infinity false => "Infinity"
  | Infinity true => "-Infinity"
  | Finite q =>
      if Number_isInteger n
         && (Z.abs (Qnum q / Zpos (Qden q)) <=? 2 ^ 53)%Z
      then Z_toString (Qnum q / Zpos (Qden q))
      else shortest_decimal q
  end.

(** [new Date(n)] for a number: TimeClip of the argument. *)
Definition Date_of_number (n : JSNumber) : option Z :=
  match n with
  | Finite q =>
      match (Qabs q ?= inject_Z 8640000000000000)%Q with
      | Gt => None
      | _ => Some (Z.quot (Qnum q) (Zpos (Qden q)))
      end
  | _ => None
  end.

(** ** Reading and writing properties *)

(** The own property of that name, if there is one. *)
Fixpoint own_property (props : list (string * Value)) (key : string)
  : option Value :=
  match props with
  | [] => None
  | (k, v) :: rest => if String.eqb k key then Some v else own_property rest key
  end.

(** [obj[key]] for a value that passed the object type check: the own
    property, and without one what the prototype chain holds. *)
Definition get_property {P : Platform} (obj : Value) (key : string) : Value :=
  match obj with
  | VObj props =>
      match own_property props key with
      | Some v => v
      | None => Object_prototype key
      end
  | VDate _ => Date_prototype key
  | _ => VUndefined
  end.

(** Defining or updating an own property: an existing key keeps its place. *)
Fixpoint define_property (props : list (string * Value)) (key : string)
  (v : Value) : list (string * Value) :=
  match props with
  | [] => [(key, v)]
  | (k, w) :: rest =>
      if String.eqb k key then (k, v) :: rest
      else (k, w) :: define_property rest key v
  end.

(** The assignment [props[key] = v] on an object made by [{}].  Under the key
    "__proto__" it reaches the setter of [Object.prototype] and stores no
    property; that setter changes the prototype of the object when [v] is an
    object, which the values here do not record, so the statements on
    validated objects leave that key out. *)
Definition assign (props : list (string * Value)) (key : string) (v : Value)
  : list (string * Value) :=
  if String.eqb key "__proto__" then props else define_property props key v.

(** ** Validation results

    [ValidationResult<T>] has a mandatory [success] and two optional
    properties; [None] is an absent property, and [Some VUndefined] a [data]
    that is present and holds [undefined]. *)

Record ValidationResult : Type := mkResult {
  success : bool;
  data : option Value;
  errors : option (list string)
}.

(** [result.data!] read as a value: an absent property reads [undefined]. *)
Definition data_of (r : ValidationResult) : Value :=
  match data r with Some d => d | None => VUndefined end.

(** [errors.join(', ')]. *)
Definition join (l : list string) : string := String.concat ", " l.

(** [${result.errors?.join(', ')}] inside a template literal. *)
Definition joined_errors (r : ValidationResult) : string :=
  match errors r with Some l => join l | None => "undefined" end.

(** ** ValidationUtils *)

Definition isNullish (value : Value) : bool :=
  match value with VNull | VUndefined => true | _ => false end.

Section Utils.
Context {P : Platform}.

Definition validateRange (value : JSNumber) (min max : option JSNumber)
  (type : string) : option string :=
  let upper :=
    match max with
    | Some x =>
        if num_gt value x
        then Some (type ++ " must be no more than " ++ Number_toString x)
        else None
    | None => None
    end in
  match min with
  | Some m =>
      if num_lt value m
      then Some (type ++ " must be at least " ++ Number_toString m)
      else upper
  | None => upper
  end.

Definition length_unit (type : string) : string :=
  if String.eqb type "Array" then "items" else "characters long".

Definition validateLength (length : JSNumber)
  (minLength maxLength : option JSNumber) (type : string) : option string :=
  let upper :=
    match maxLength with
    | Some x =>
        if num_gt length x
        then Some (type ++ " must have no more than " ++ Number_toString x
                   ++ " " ++ length_unit type)
        else None
    | None => None
    end in
  match minLength with
  | Some m =>
      if num_lt length m
      then Some (type ++ " must have at least " ++ Number_toString m
                 ++ " " ++ length_unit type)
      else upper
  | None => upper
  end.

End Utils.

(** [a || b] on an optional string and a string: the empty string is falsy. *)
Definition or_else (a : option string) (b : string) : string :=
  match a with
  | Some "" | None => b
  | Some m => m
  end.

Definition createPatternError (customMessage : option string) : string :=
  or_else customMessage "Value does not match the required pattern".

(** ** The base class [Validator<T>] *)

Record Base : Type := mkBase {
  _optional : bool;
  _customMessage : option string
}.

Definition new_Base : Base := mkBase false None.

Definition createError (this : Base) (message : string) : ValidationResult :=
  mkResult false None (Some [or_else (_customMessage this) message]).

Definition createSuccess (d : Value) : ValidationResult :=
  mkResult true (Some d) None.

(** [None] is the [null] that lets validation continue. *)
Definition handleOptional (this : Base) (value : Value)
  : option ValidationResult :=
  if isNullish value then
    if _optional this then Some (createSuccess VUndefined)
    else Some (createError this "Value is required")
  else None.

Definition validateType (this : Base) (value : Value)
  (expectedType typeName : string) : option ValidationResult :=
  if negb (String.eqb (typeof value) expectedType)
  then Some (createError this ("Value must be a " ++ typeName))
  else None.

(** ** The validator classes

    A validator is its configuration: the fields of the base class and those
    of its own class.  A [RegExp] is a regular expression without the flags
    [g] and [y], given by the predicate its [test] method computes; with one
    of these flags [test] reads and writes [lastIndex], [validate] is no
    function of its input, and the validator is left out of what follows.
    A [Date] bound is the time value of the [Date] object. *)

Definition RegExp : Type := string -> bool.

Inductive Literal : Type :=
| LStr (s : string)
| LNum (n : JSNumber)
| LBool (b : bool).

Inductive Validator : Type :=
| StringValidator (base : Base) (_minLength _maxLength : option JSNumber)
    (_pattern : option RegExp)
| NumberValidator (base : Base) (_min _max : option JSNumber)
    (_integer _positive : bool)
| BooleanValidator (base : Base)
| DateValidator (base : Base) (_minDate _maxDate : option (option Z))
| ArrayValidator (base : Base) (_minLength _maxLength : option JSNumber)
    (itemValidator : Validator)
| ObjectValidator (base : Base) (schema : list (string * Validator))
| UnionValidator (base : Base) (validators : list Validator)
| LiteralValidator (base : Base) (value : Literal).

Definition base_of (v : Validator) : Base :=
  match v with
  | StringValidator b _ _ _ | NumberValidator b _ _ _ _ | BooleanValidator b
  | DateValidator b _ _ | ArrayValidator b _ _ _ | ObjectValidator b _
  | UnionValidator b _ | LiteralValidator b _ => b
  end.

Definition with_base (f : Base -> Base) (v : Validator) : Validator :=
  match v with
  | StringValidator b mn mx p => StringValidator (f b) mn mx p
  | NumberValidator b mn mx i p => NumberValidator (f b) mn mx i p
  | BooleanValidator b => BooleanValidator (f b)
  | DateValidator b mn mx => DateValidator (f b) mn mx
  | ArrayValidator b mn mx item => ArrayValidator (f b) mn mx item
  | ObjectValidator b schema => ObjectValidator (f b) schema
  | UnionValidator b vs => UnionValidator (f b) vs
  | LiteralValidator b value => LiteralValidator (f b) value
  end.

(** *** Configuration methods

    Each method of the source updates the receiver and returns it; here it
    returns the updated configuration. *)

Definition optional (v : Validator) : Validator :=
  with_base (fun b => mkBase true (_customMessage b)) v.

Definition withMessage (message : string) (v : Validator) : Validator :=
  with_base (fun b => mkBase (_optional b) (Some message)) v.

(** [RangeConstrainedValidator.min] and [max]. *)
Definition min (value : JSNumber) (v : Validator) : Validator :=
  match v with
  | NumberValidator b _ mx i p => NumberValidator b (Some value) mx i p
  | _ => v
  end.

Definition max (value : JSNumber) (v : Validator) : Validator :=
  match v with
  | NumberValidator b mn _ i p => NumberValidator b mn (Some value) i p
  | _ => v
  end.

(** [LengthConstrainedValidator.minLength] and [maxLength]. *)
Definition minLength (length : JSNumber) (v : Validator) : Validator :=
  match v with
  | StringValidator b _ mx p => StringValidator b (Some length) mx p
  | ArrayValidator b _ mx item => ArrayValidator b (Some length) mx item
  | _ => v
  end.

Definition maxLength (length : JSNumber) (v : Validator) : Validator :=
  match v with
  | StringValidator b mn _ p => StringValidator b mn (Some length) p
  | ArrayValidator b mn _ item => ArrayValidator b mn (Some length) item
  | _ => v
  end.

Definition pattern (regex : RegExp) (v : Validator) : Validator :=
  match v with
  | StringValidator b mn mx _ => StringValidator b mn mx (Some regex)
  | _ => v
  end.

(** [email] and [url] install a fixed regular expression, given here by the
    predicate it computes, and a custom message. *)
Definition email (email_regex : RegExp) (v : Validator) : Validator :=
  withMessage "Must be a valid email address" (pattern email_regex v).

Definition url (url_regex : RegExp) (v : Validator) : Validator :=
  withMessage "Must be a valid URL" (pattern url_regex v).

Definition integer (v : Validator) : Validator :=
  match v with
  | NumberValidator b mn mx _ p => NumberValidator b mn mx true p
  | _ => v
  end.

Definition positive (v : Validator) : Validator :=
  match v with
  | NumberValidator b mn mx i _ => NumberValidator b mn mx i true
  | _ => v
  end.

(** [DateValidator.min] and [max]. *)
Definition min_date (date : option Z) (v : Validator) : Validator :=
  match v with
  | DateValidator b _ mx => DateValidator b (Some date) mx
  | _ => v
  end.

Definition max_date (date : option Z) (v : Validator) : Validator :=
  match v with
  | DateValidator b mn _ => DateValidator b mn (Some date)
  | _ => v
  end.

(** [future] and [past]; [now] is the time value of [new Date()]. *)
Definition future (now : Z) (v : Validator) : Validator :=
  withMessage "Date must be in the future" (min_date (Some now) v).

Definition past (now : Z) (v : Validator) : Validator :=
  withMessage "Date must be in the past" (max_date (Some now) v).

Definition nonEmpty (v : Validator) : Validator :=
  withMessage "Array cannot be empty" (minLength (num_of_Z 1) v).

Definition strict (v : Validator) : Validator :=
  withMessage "Object contains unexpected properties" v.

(** *** The Schema facade *)

Module Schema.
Definition string : Validator := StringValidator new_Base None None None.
Definition number : Validator := NumberValidator new_Base None None false false.
Definition boolean : Validator := BooleanValidator new_Base.
Definition date : Validator := DateValidator new_Base None None.
Definition object (schema : list (String.string * Validator)) : Validator :=
  ObjectValidator new_Base schema.
Definition array (itemValidator : Validator) : Validator :=
  ArrayValidator new_Base None None itemValidator.
Definition union (validators : list Validator) : Validator :=
  UnionValidator new_Base validators.
Definition literal (value : Literal) : Validator :=
  LiteralValidator new_Base value.
End Schema.

(** ** The [validate] methods *)

(** [array.push(x)]. *)
Definition push {A : Type} (array : list A) (x : A) : list A :=
  (array ++ [x])%list.

(** The casts [value as string], [value as number] and the like: they are
    applied after the type check, where they change nothing. *)
Definition as_string (value : Value) : string :=
  match value with VStr s => s | _ => "" end.

Definition as_number (value : Value) : JSNumber :=
  match value with VNum n => n | _ => NaN end.

Definition as_array (value : Value) : list Value :=
  match value with VArr items => items | _ => [] end.

(** The time value of a [Date]. *)
Definition getTime (value : Value) : option Z :=
  match value with VDate t => t | _ => None end.

(** [a < b] on two [Date] objects compares their time values as numbers. *)
Definition date_lt (a b : option Z) : bool :=
  match a, b with
  | Some x, Some y => (x <? y)%Z
  | _, _ => false
  end.

(** [input !== value] is [negb] of this. *)
Definition strict_eq (input : Value) (value : Literal) : bool :=
  match input, value with
  | VStr a, LStr b => String.eqb a b
  | VNum a, LNum b => num_strict_eq a b
  | VBool a, LBool b => Bool.eqb a b
  | _, _ => false
  end.

Section Validate.
Context {P : Platform}.

(** [toISOString] throws on an invalid date; [validateDateRange] calls it
    only on a bound that compared greater or less than a valid date. *)
Definition toISOString (t : option Z) : string :=
  match t with Some z => Date_toISOString z | None => "Invalid Date" end.

Definition Literal_toString (value : Literal) : string :=
  match value with
  | LStr s => s
  | LNum n => Number_toString n
  | LBool true => "true"
  | LBool false => "false"
  end.

Definition StringValidator_validate (this : Base)
  (_minLength _maxLength : option JSNumber) (_pattern : option RegExp)
  (value : Value) : ValidationResult :=
  match handleOptional this value with
  | Some optionalResult => optionalResult
  | None =>
  match validateType this value "string" "string" with
  | Some typeError => typeError
  | None =>
  let str := as_string value in
  match validateLength (num_of_nat (String.length str))
          _minLength _maxLength "String" with
  | Some lengthError => createError this lengthError
  | None =>
  match _pattern with
  | Some regex =>
      if negb (regex str)
      then createError this (createPatternError None)
      else createSuccess (VStr str)
  | None => createSuccess (VStr str)
  end end end end.

Definition NumberValidator_validate (this : Base)
  (_min _max : option JSNumber) (_integer _positive : bool)
  (value : Value) : ValidationResult :=
  match handleOptional this value with
  | Some optionalResult => optionalResult
  | None =>
  if negb (String.eqb (typeof value) "number") || isNaN (as_number value)
  then createError this "Value must be a number"
  else
  let num := as_number value in
  match validateRange num _min _max "Number" with
  | Some rangeError => createError this rangeError
  | None =>
  if _integer && negb (Number_isInteger num)
  then createError this "Number must be an integer"
  else if _positive && num_le num (num_of_Z 0)
  then createError this "Number must be positive"
  else createSuccess (VNum num)
  end end.

Definition BooleanValidator_validate (this : Base) (value : Value)
  : ValidationResult :=
  match handleOptional this value with
  | Some optionalResult => optionalResult
  | None =>
  match validateType this value "boolean" "boolean" with
  | Some typeError => typeError
  | None => createSuccess value
  end end.

Definition parseDate (this : Base) (value : Value) : ValidationResult :=
  let checked (date : option Z) :=
    match date with
    | None => createError this "Value must be a valid date"
    | Some _ => createSuccess (VDate date)
    end in
  match value with
  | VDate time => checked time
  | VStr s => checked (Date_parse s)
  | VNum n => checked (Date_of_number n)
  | _ => createError this "Value must be a Date, string, or number"
  end.

Definition validateDateRange (_minDate _maxDate : option (option Z))
  (date : option Z) : option string :=
  let upper :=
    match _maxDate with
    | Some x =>
        if date_lt x date
        then Some ("Date must be before " ++ toISOString x)
        else None
    | None => None
    end in
  match _minDate with
  | Some m =>
      if date_lt date m
      then Some ("Date must be after " ++ toISOString m)
      else upper
  | None => upper
  end.

Definition DateValidator_validate (this : Base)
  (_minDate _maxDate : option (option Z)) (value : Value)
  : ValidationResult :=
  match handleOptional this value with
  | Some optionalResult => optionalResult
  | None =>
  let dateResult := parseDate this value in
  if negb (success dateResult) then dateResult
  else
  let date := data_of dateResult in
  match validateDateRange _minDate _maxDate (getTime date) with
  | Some rangeError => createError this rangeError
  | None => createSuccess date
  end end.

Definition LiteralValidator_validate (this : Base) (value : Literal)
  (input : Value) : ValidationResult :=
  match handleOptional this input with
  | Some optionalResult => optionalResult
  | None =>
  if negb (strict_eq input value)
  then createError this ("Value must be exactly " ++ Literal_toString value)
  else createSuccess input
  end.

(** *** Arrays

    The loop of [validateItems], with its index and its two accumulators;
    [item_validate] is [this.itemValidator.validate]. *)

Section Items.
Variable item_validate : Value -> ValidationResult.

Fixpoint validateItems_loop (array : list Value) (i : nat)
  (validatedItems : list Value) (errors : list string)
  : list Value * list string :=
  match array with
  | [] => (validatedItems, errors)
  | item :: rest =>
      let result := item_validate item in
      if success result
      then validateItems_loop rest (S i)
             (push validatedItems (data_of result)) errors
      else validateItems_loop rest (S i) validatedItems
             (push errors ("Item at index " ++ nat_toString i ++ ": "
                           ++ joined_errors result))
  end.

Definition validateItems (array : list Value) : ValidationResult :=
  let '(validatedItems, errors) := validateItems_loop array 0 [] [] in
  if (0 <? List.length errors)%nat
  then mkResult false None (Some errors)
  else createSuccess (VArr validatedItems).

Definition ArrayValidator_validate (this : Base)
  (_minLength _maxLength : option JSNumber) (value : Value)
  : ValidationResult :=
  match handleOptional this value with
  | Some optionalResult => optionalResult
  | None =>
  if negb (Array_isArray value)
  then createError this "Value must be an array"
  else
  let array := as_array value in
  match validateLength (num_of_nat (List.length array))
          _minLength _maxLength "Array" with
  | Some lengthError => createError this lengthError
  | None =>
  let itemResult := validateItems array in
  if negb (success itemResult) then itemResult
  else createSuccess (data_of itemResult)
  end end.

End Items.

(** *** Objects and unions

    Both walk a list of child validators; [child_validate] is the [validate]
    method of a child. *)

Section Children.
Context {V : Type}.
Variable child_validate : V -> Value -> ValidationResult.

(** The loop of [validateFields] over [Object.entries(this.schema)]. *)
Fixpoint validateFields_loop (entries : list (string * V)) (obj : Value)
  (validatedObj : list (string * Value)) (errors : list string)
  : list (string * Value) * list string :=
  match entries with
  | [] => (validatedObj, errors)
  | (key, validator) :: rest =>
      let result := child_validate validator (get_property obj key) in
      if success result
      then
        if is_defined (data_of result)
        then validateFields_loop rest obj
               (assign validatedObj key (data_of result)) errors
        else validateFields_loop rest obj validatedObj errors
      else validateFields_loop rest obj validatedObj
             (push errors ("Field '" ++ key ++ "': "
                           ++ joined_errors result))
  end.

Definition validateFields (schema : list (string * V)) (obj : Value)
  : ValidationResult :=
  let '(validatedObj, errors) := validateFields_loop schema obj [] [] in
  if (0 <? List.length errors)%nat
  then mkResult false None (Some errors)
  else createSuccess (VObj validatedObj).

Definition ObjectValidator_validate (this : Base)
  (schema : list (string * V)) (value : Value) : ValidationResult :=
  match handleOptional this value with
  | Some optionalResult => optionalResult
  | None =>
  if negb (String.eqb (typeof value) "object") || Array_isArray value
  then createError this "Value must be an object"
  else
  let fieldResult := validateFields schema value in
  if negb (success fieldResult) then fieldResult
  else createSuccess (data_of fieldResult)
  end.

(** The loop of [UnionValidator.validate]: the first success is returned. *)
Fixpoint first_success (validators : list V) (value : Value)
  : option ValidationResult :=
  match validators with
  | [] => None
  | validator :: rest =>
      let result := child_validate validator value in
      if success result then Some result else first_success rest value
  end.

Definition UnionValidator_validate (this : Base) (validators : list V)
  (value : Value) : ValidationResult :=
  match handleOptional this value with
  | Some optionalResult => optionalResult
  | None =>
  match first_success validators value with
  | Some result => result
  | None => createError this "Value does not match any of the allowed types"
  end end.

End Children.

(** *** Dispatch on the class of the validator *)

Fixpoint validate (v : Validator) (value : Value) {struct v}
  : ValidationResult :=
  match v with
  | StringValidator this mn mx p => StringValidator_validate this mn mx p value
  | NumberValidator this mn mx i p =>
      NumberValidator_validate this mn mx i p value
  | BooleanValidator this => BooleanValidator_validate this value
  | DateValidator this mn mx => DateValidator_validate this mn mx value
  | ArrayValidator this mn mx item =>
      ArrayValidator_validate (validate item) this mn mx value
  | ObjectValidator this schema =>
      ObjectValidator_validate validate this schema value
  | UnionValidator this validators =>
      UnionValidator_validate validate this validators value
  | LiteralValidator this lit => LiteralValidator_validate this lit value
  end.

End Validate.

(** ** A platform to run the examples on

    The examples below hold integers and dates written YYYY-MM-DD, which
    every platform reads as midnight UTC of that day; other strings are not
    dates here, and a number that is not an integer prints as its fraction.
    The prototypes are those of ECMAScript. *)

Module ExamplePlatform.

Definition digit (c : ascii) : option Z :=
  let n := Z.of_nat (nat_of_ascii c) in
  if ((48 <=? n) && (n <=? 57))%Z then Some (n - 48)%Z else None.

Fixpoint digits (acc : Z) (l : list ascii) : option Z :=
  match l with
  | [] => Some acc
  | c :: rest =>
      match digit c with
      | Some d => digits (10 * acc + d)%Z rest
      | None => None
      end
  end.

Definition is_leap (y : Z) : bool :=
  ((y mod 4 =? 0) && (negb (y mod 100 =? 0) || (y mod 400 =? 0)))%Z.

Definition days_in_month (y m : Z) : Z :=
  if (m =? 2)%Z then (if is_leap y then 29 else 28)%Z
  else if ((m =? 4) || (m =? 6) || (m =? 9) || (m =? 11))%Z then 30%Z
  else 31%Z.

(** Days from 1970-01-01 to the given civil date. *)
Definition days_from_civil (y m d : Z) : Z :=
  let y' := if (m <=? 2)%Z then (y - 1)%Z else y in
  let era := (y' / 400)%Z in
  let yoe := (y' - era * 400)%Z in
  let mp := if (m >? 2)%Z then (m - 3)%Z else (m + 9)%Z in
  let doy := ((153 * mp + 2) / 5 + d - 1)%Z in
  let doe := (yoe * 365 + yoe / 4 - yoe / 100 + doy)%Z in
  (era * 146097 + doe - 719468)%Z.

Definition parse (s : string) : option Z :=
  match list_ascii_of_string s with
  | [y1; y2; y3; y4; "-"%char; m1; m2; "-"%char; d1; d2] =>
      match digits 0 [y1; y2; y3; y4], digits 0 [m1; m2], digits 0 [d1; d2] with
      | Some y, Some m, Some d =>
          if ((1 <=? m) && (m <=? 12) && (1 <=? d)
              && (d <=? days_in_month y m))%Z
          then Some (days_from_civil y m d * 86400000)%Z
          else None
      | _, _, _ => None
      end
  | _ => None
  end.

(** The civil date of a day count, the inverse of [days_from_civil]. *)
Definition civil_from_days (z : Z) : Z * Z * Z :=
  let z' := (z + 719468)%Z in
  let era := (z' / 146097)%Z in
  let doe := (z' - era * 146097)%Z in
  let yoe := ((doe - doe / 1460 + doe / 36524 - doe / 146096) / 365)%Z in
  let doy := (doe - (365 * yoe + yoe / 4 - yoe / 100))%Z in
  let mp := ((5 * doy + 2) / 153)%Z in
  let d := (doy - (153 * mp + 2) / 5 + 1)%Z in
  let m := if (mp <? 10)%Z then (mp + 3)%Z else (mp - 9)%Z in
  let y := (yoe + era * 400 + (if (m <=? 2)%Z then 1 else 0))%Z in
  (y, m, d).

(** [z] in decimal, padded with zeros to [width] digits. *)
Definition padded (width : nat) (z : Z) : string :=
  let s := Z_toString z in
  string_of_list_ascii (repeat "0"%char (width - String.length s)) ++ s.

Definition iso (t : Z) : string :=
  let day := (t / 86400000)%Z in
  let ms := (t mod 86400000)%Z in
  let '(y, m, d) := civil_from_days day in
  padded 4 y ++ "-" ++ padded 2 m ++ "-" ++ padded 2 d ++ "T"
  ++ padded 2 (ms / 3600000) ++ ":" ++ padded 2 (ms / 60000 mod 60) ++ ":"
  ++ padded 2 (ms / 1000 mod 60) ++ "." ++ padded 3 (ms mod 1000) ++ "Z".

Definition fraction (q : Q) : string :=
  Z_toString (Qnum q) ++ "/" ++ Z_toString (Zpos (Qden q)).

(** The members ECMAScript gives [Object.prototype] and [Date.prototype],
    all of them functions but [__proto__], which reads the prototype of the
    object, an object itself. *)
Definition object_members : list string :=
  ["constructor"; "hasOwnProperty"; "isPrototypeOf"; "propertyIsEnumerable";
   "toLocaleString"; "toString"; "valueOf"; "__defineGetter__";
   "__defineSetter__"; "__lookupGetter__"; "__lookupSetter__"].

Definition date_members : list string :=
  ["getDate"; "getDay"; "getFullYear"; "getHours"; "getMilliseconds";
   "getMinutes"; "getMonth"; "getSeconds"; "getTime"; "getTimezoneOffset";
   "getUTCDate"; "getUTCDay"; "getUTCFullYear"; "getUTCHours";
   "getUTCMilliseconds"; "getUTCMinutes"; "getUTCMonth"; "getUTCSeconds";
   "getYear"; "setDate"; "setFullYear"; "setHours"; "setMilliseconds";
   "setMinutes"; "setMonth"; "setSeconds"; "setTime"; "setUTCDate";
   "setUTCFullYear"; "setUTCHours"; "setUTCMilliseconds"; "setUTCMinutes";
   "setUTCMonth"; "setUTCSeconds"; "setYear"; "toDateString"; "toGMTString";
   "toISOString"; "toJSON"; "toLocaleDateString"; "toLocaleTimeString";
   "toTimeString"; "toUTCString"].

Definition member (names : list string) (key : string) : bool :=
  existsb (String.eqb key) names.

Definition object_prototype (key : string) : Value :=
  if member object_members key then VOther TFunction 0
  else if String.eqb key "__proto__" then VObj []
  else VUndefined.

Definition date_prototype (key : string) : Value :=
  if member date_members key then VOther TFunction 0
  else object_prototype key.

Definition platform : Platform :=
  {| shortest_decimal := fraction; Date_parse := parse;
     Date_toISOString := iso; Object_prototype := object_prototype;
     Date_prototype := date_prototype |}.

End ExamplePlatform.

(** [run v value] is [v.validate(value)] on the example platform. *)
Definition run : Validator -> Value -> ValidationResult :=
  @validate ExamplePlatform.platform.

Definition int (z : Z) : Value := VNum (num_of_Z z).

(** ** Induction on validators

    [Validator] nests through [list] and [prod]; the principle below gives
    the induction hypothesis for every child of an object or a union. *)

Section ValidatorInduction.
Variable Q : Validator -> Prop.
Hypothesis HString : forall b mn mx p, Q (StringValidator b mn mx p).
Hypothesis HNumber : forall b mn mx i p, Q (NumberValidator b mn mx i p).
Hypothesis HBoolean : forall b, Q (BooleanValidator b).
Hypothesis HDate : forall b mn mx, Q (DateValidator b mn mx).
Hypothesis HArray :
  forall b mn mx item, Q item -> Q (ArrayValidator b mn mx item).
Hypothesis HObject :
  forall b schema,
    Forall (fun kv => Q (snd kv)) schema -> Q (ObjectValidator b schema).
Hypothesis HUnion :
  forall b vs, Forall Q vs -> Q (UnionValidator b vs).
Hypothesis HLiteral : forall b lit, Q (LiteralValidator b lit).

Fixpoint Validator_nested_ind (v : Validator) : Q v :=
  match v with
  | StringValidator b mn mx p => HString b mn mx p
  | NumberValidator b mn mx i p => HNumber b mn mx i p
  | BooleanValidator b => HBoolean b
  | DateValidator b mn mx => HDate b mn mx
  | ArrayValidator b mn mx item =>
      HArray b mn mx item (Validator_nested_ind item)
  | ObjectValidator b schema =>
      HObject b schema
        ((fix fields (l : list (string * Validator))
            : Forall (fun kv => Q (snd kv)) l :=
            match l with
            | [] => Forall_nil _
            | kv :: rest =>
                Forall_cons kv (Validator_nested_ind (snd kv)) (fields rest)
            end) schema)
  | UnionValidator b vs =>
      HUnion b vs
        ((fix alternatives (l : list Validator) : Forall Q l :=
            match l with
            | [] => Forall_nil _
            | v :: rest =>
                Forall_cons v (Validator_nested_ind v) (alternatives rest)
            end) vs)
  | LiteralValidator b lit => HLiteral b lit
  end.

End ValidatorInduction.

(** ** Vocabulary of the statements *)

(** The failure a validator reports with the given messages. *)
Definition failure (messages : list string) : ValidationResult :=
  mkResult false None (Some messages).

(** [array.entries()]: every element with its index, the first being 0. *)
Definition entries_from (i : nat) (array : list Value) : list (nat * Value) :=
  combine (seq i (List.length array)) array.

Definition entries (array : list Value) : list (nat * Value) :=
  entries_from 0 array.

(** A value that passes the presence and type checks of an object
    validator. *)
Definition is_object (value : Value) : bool :=
  negb (isNullish value) && String.eqb (typeof value) "object"
  && negb (Array_isArray value).

(** The shape every result must have: a success carries [data] and no
    [errors], a failure carries a non-empty [errors] and no [data]. *)
Definition well_formed (r : ValidationResult) : Prop :=
  if success r
  then (exists d, data r = Some d) /\ errors r = None
  else (exists e rest, errors r = Some (e :: rest)) /\ data r = None.

Section Aggregation.
Context {P : Platform}.

(** Whether the child accepts or rejects an element, and the one entry a
    rejected element adds to the errors of the array. *)
Definition item_fails (item : Validator) (ix : nat * Value) : bool :=
  negb (success (validate item (snd ix))).

Definition item_entry (item : Validator) (ix : nat * Value) : string :=
  "Item at index " ++ nat_toString (fst ix) ++ ": "
  ++ joined_errors (validate item (snd ix)).

(** The same for a declared field of an object read on [obj]. *)
Definition field_result (obj : Value) (kv : string * Validator)
  : ValidationResult :=
  validate (snd kv) (get_property obj (fst kv)).

Definition field_fails (obj : Value) (kv : string * Validator) : bool :=
  negb (success (field_result obj kv)).

Definition field_kept (obj : Value) (kv : string * Validator) : bool :=
  success (field_result obj kv) && is_defined (data_of (field_result obj kv)).

Definition field_entry (obj : Value) (kv : string * Validator) : string :=
  "Field '" ++ fst kv ++ "': " ++ joined_errors (field_result obj kv).

Definition field_value (obj : Value) (kv : string * Validator)
  : string * Value :=
  (fst kv, data_of (field_result obj kv)).

(** What the design document says of a rejected element: one entry for each
    error of the child, each with the prefix of the element. *)
Definition item_entries_per_child_error (item : Validator)
  (ix : nat * Value) : list string :=
  match errors (validate item (snd ix)) with
  | Some child_errors =>
      map (fun e => "Item at index " ++ nat_toString (fst ix) ++ ": " ++ e)
        child_errors
  | None => []
  end.

Definition field_entries_per_child_error (obj : Value)
  (kv : string * Validator) : list string :=
  match errors (field_result obj kv) with
  | Some child_errors =>
      map (fun e => "Field '" ++ fst kv ++ "': " ++ e) child_errors
  | None => []
  end.

End Aggregation.

(** The validator with its custom message replaced, the other settings
    kept; [withMessage m] is [set_message (Some m)]. *)
Definition set_message (custom : option string) (v : Validator) : Validator :=
  with_base (fun b => mkBase (_optional b) custom) v.

(** The validator with its custom message removed. *)
Definition without_message (v : Validator) : Validator :=
  set_message None v.

(** The message an error carries: the custom message when there is one and
    it is not the empty string, the default message otherwise. *)
Definition reported (custom : option string) (default : string) : string :=
  match custom with
  | Some m => if String.eqb m "" then default else m
  | None => default
  end.

Section OwnFailures.
Context {P : Platform}.

(** The platform date constructor on the inputs the date validator converts;
    [None] on every other input. *)
Definition new_Date (value : Value) : option (option Z) :=
  match value with
  | VDate time => Some time
  | VStr s => Some (Date_parse s)
  | VNum n => Some (Date_of_number n)
  | _ => None
  end.

(** The failure a validator raises by itself, with its default message: a
    missing value, a value of the wrong type, a violated constraint, an
    exhausted union or a literal mismatch.  [None] when it raises none: the
    value is accepted, or an array or an object hands over to the validation
    of its elements or fields. *)
Definition own_failure (v : Validator) (value : Value) : option string :=
  if isNullish value
  then if _optional (base_of v) then None else Some "Value is required"
  else
  match v with
  | StringValidator _ mn mx p =>
      match value with
      | VStr s =>
          match validateLength (num_of_nat (String.length s)) mn mx "String"
          with
          | Some lengthError => Some lengthError
          | None =>
              match p with
              | Some regex =>
                  if regex s then None
                  else Some "Value does not match the required pattern"
              | None => None
              end
          end
      | _ => Some "Value must be a string"
      end
  | NumberValidator _ mn mx i p =>
      match value with
      | VNum NaN => Some "Value must be a number"
      | VNum n =>
          match validateRange n mn mx "Number" with
          | Some rangeError => Some rangeError
          | None =>
              if i && negb (Number_isInteger n)
              then Some "Number must be an integer"
              else if p && num_le n (num_of_Z 0)
              then Some "Number must be positive"
              else None
          end
      | _ => Some "Value must be a number"
      end
  | BooleanValidator _ =>
      match value with
      | VBool _ => None
      | _ => Some "Value must be a boolean"
      end
  | DateValidator _ mn mx =>
      match new_Date value with
      | None => Some "Value must be a Date, string, or number"
      | Some None => Some "Value must be a valid date"
      | Some (Some t) => validateDateRange mn mx (Some t)
      end
  | ArrayValidator _ mn mx _ =>
      match value with
      | VArr items =>
          validateLength (num_of_nat (List.length items)) mn mx "Array"
      | _ => Some "Value must be an array"
      end
  | ObjectValidator _ _ =>
      if is_object value then None else Some "Value must be an object"
  | UnionValidator _ alternatives =>
      if existsb (fun alt => success (validate alt value)) alternatives
      then None
      else Some "Value does not match any of the allowed types"
  | LiteralValidator _ lit =>
      if strict_eq value lit then None
      else Some ("Value must be exactly " ++ Literal_toString lit)
  end.

(** The constraints of a number validator in the order of the design
    document, each with the message of its violation: the range (first the
    lower bound, then the upper one, both inclusive), the integer
    constraint, the positive constraint. *)
Definition Constraint : Type := ((JSNumber -> bool) * string)%type.

Definition at_least (mn : option JSNumber) : list Constraint :=
  match mn with
  | Some m =>
      [(fun n => num_lt n m, "Number must be at least " ++ Number_toString m)]
  | None => []
  end.

Definition no_more_than (mx : option JSNumber) : list Constraint :=
  match mx with
  | Some x =>
      [(fun n => num_gt n x,
        "Number must be no more than " ++ Number_toString x)]
  | None => []
  end.

Definition is_integer (i : bool) : list Constraint :=
  if i then [(fun n => negb (Number_isInteger n), "Number must be an integer")]
  else [].

Definition is_positive (p : bool) : list Constraint :=
  if p then [(fun n => num_le n (num_of_Z 0), "Number must be positive")]
  else [].

Definition number_constraints (mn mx : option JSNumber) (i p : bool)
  : list Constraint :=
  (at_least mn ++ no_more_than mx ++ is_integer i ++ is_positive p)%list.

(** The message of the first constraint of the list that [n] violates. *)
Definition first_violated (constraints : list Constraint) (n : JSNumber)
  : option string :=
  option_map snd (find (fun c => fst c n) constraints).

End OwnFailures.

(** ** Classes of validators *)

(** Whether no key occurs twice in the list. *)
Fixpoint distinct (keys : list string) : bool :=
  match keys with
  | [] => true
  | key :: rest => negb (existsb (String.eqb key) rest) && distinct rest
  end.

Section PlainKeys.
Context {P : Platform}.

(** A key that a plain object holds only as a property of its own: it is not
    "__proto__", and [Object.prototype] holds nothing under it. *)
Definition plain_key (key : string) : bool :=
  negb (String.eqb key "__proto__") && negb (is_defined (Object_prototype key)).

(** Whether every schema inside the validator has distinct keys, as the
    schema of [Schema.object] has, being a JavaScript object, and plain
    keys only. *)
Fixpoint plain_keys (v : Validator) : bool :=
  match v with
  | ArrayValidator _ _ _ item => plain_keys item
  | ObjectValidator _ schema =>
      distinct (map fst schema)
      && forallb plain_key (map fst schema)
      && forallb (fun kv => plain_keys (snd kv)) schema
  | UnionValidator _ alternatives => forallb plain_keys alternatives
  | _ => true
  end.

End PlainKeys.

(** Whether the validator holds no union, at any depth. *)
Fixpoint union_free (v : Validator) : bool :=
  match v with
  | ArrayValidator _ _ _ item => union_free item
  | ObjectValidator _ schema => forallb (fun kv => union_free (snd kv)) schema
  | UnionValidator _ _ => false
  | _ => true
  end.

(** The validators of strings, numbers, booleans and literals, and the unions
    of such validators. *)
Fixpoint scalar (v : Validator) : bool :=
  match v with
  | StringValidator _ _ _ _ | NumberValidator _ _ _ _ _ | BooleanValidator _
  | LiteralValidator _ _ => true
  | UnionValidator _ alternatives => forallb scalar alternatives
  | _ => false
  end.

(** Whether the length [n] of a string or of an array is within the
    configured bounds; an absent bound bounds nothing. *)
Definition length_within (n : nat) (mn mx : option JSNumber) : bool :=
  negb (match mn with Some m => num_lt (num_of_nat n) m | None => false end)
  && negb (match mx with Some x => num_gt (num_of_nat n) x | None => false end).

(** Whether the string matches the configured pattern, if there is one. *)
Definition pattern_matches (p : option RegExp) (s : string) : bool :=
  match p with Some regex => regex s | None => true end.

Section Elements.
Context {P : Platform}.

(** The data the child returns for an element, and whether the child accepts
    the element. *)
Definition item_data (item : Validator) (x : Value) : Value :=
  data_of (validate item x).

Definition item_accepted (item : Validator) (x : Value) : bool :=
  success (validate item x).

End Elements.

(** * Properties *)

Section Loops.
Context {P : Platform}.

Lemma validateItems_loop_spec (item : Validator) (array : list Value) :
  forall i validatedItems errs,
    validateItems_loop (validate item) array i validatedItems errs =
    ((validatedItems
       ++ map (fun x => data_of (validate item x))
            (filter (fun x => success (validate item x)) array))%list,
     (errs ++ map (item_entry item)
                (filter (item_fails item) (entries_from i array)))%list).
Proof.
  induction array as [|x rest IH]; intros i acc errs; cbn.
  - now rewrite !app_nil_r.
  - unfold item_fails at 1. cbn.
    destruct (success (validate item x)) eqn:Hx; cbn; rewrite IH.
    + unfold push, entries_from. now rewrite <- app_assoc.
    + unfold push, entries_from. rewrite <- app_assoc. reflexivity.
Qed.

Lemma item_fails_none (item : Validator) (array : list Value) :
  forall i,
    filter (item_fails item) (entries_from i array) = [] ->
    filter (fun x => success (validate item x)) array = array.
Proof.
  induction array as [|x rest IH]; intros i; cbn; [reflexivity|].
  unfold item_fails at 1; cbn.
  destruct (success (validate item x)); cbn; [|discriminate].
  intros H. f_equal. exact (IH (S i) H).
Qed.

Lemma validateItems_spec (item : Validator) (array : list Value) :
  validateItems (validate item) array =
  match filter (item_fails item) (entries array) with
  | [] => createSuccess (VArr (map (fun x => data_of (validate item x)) array))
  | failing => failure (map (item_entry item) failing)
  end.
Proof.
  unfold validateItems, entries. rewrite validateItems_loop_spec. cbn [app].
  destruct (filter (item_fails item) (entries_from 0 array))
    as [|ix failing] eqn:Hf.
  - cbn. now rewrite (item_fails_none _ _ _ Hf).
  - reflexivity.
Qed.

End Loops.

(** ** Arrays: aggregation over the elements *)

Section ArrayProperties.
Context {P : Platform}.

Lemma entries_from_nth (array : list Value) :
  forall start i x,
    nth_error array i = Some x -> In ((start + i)%nat, x) (entries_from start array).
Proof.
  unfold entries_from.
  induction array as [|y rest IH]; intros start i x Hi.
  - destruct i; discriminate.
  - destruct i as [|i]; cbn in *.
    + injection Hi as ->. left. f_equal. lia.
    + right. replace (start + S i)%nat with (S start + i)%nat by lia.
      now apply IH.
Qed.

(** C1, as the code has it.  Every element of the array is validated by the
    child, whatever the other elements did: the result of [validateItems] is
    a success holding the data of every element when no element fails, and
    otherwise one failure whose errors hold exactly one entry for each
    failing element, in the order of the indices; the entry is
    "Item at index <i>: " followed by the errors of the child joined by
    ", ".  [validate] returns that result as soon as the value is an array of
    an accepted length. *)
Theorem array_one_entry_per_failing_element
  (this : Base) (mn mx : option JSNumber) (item : Validator)
  (array : list Value) :
  validateItems (validate item) array =
    match filter (item_fails item) (entries array) with
    | [] =>
        createSuccess (VArr (map (fun x => data_of (validate item x)) array))
    | failing => failure (map (item_entry item) failing)
    end
  /\ validate (ArrayValidator this mn mx item) (VArr array) =
       match validateLength (num_of_nat (List.length array)) mn mx "Array" with
       | Some lengthError => createError this lengthError
       | None => validateItems (validate item) array
       end.
Proof.
  split; [apply validateItems_spec|].
  cbn. unfold ArrayValidator_validate. cbn.
  destruct (validateLength _ mn mx "Array"); [reflexivity|].
  rewrite validateItems_spec.
  now destruct (filter (item_fails item) (entries array)).
Qed.

(** No element hides another: an element the child rejects has its entry in
    the errors, whatever its index. *)
Lemma every_failing_index_reported (item : Validator) (array : list Value)
  (i : nat) (x : Value) :
  nth_error array i = Some x ->
  success (validate item x) = false ->
  exists errs,
    validateItems (validate item) array = failure errs
    /\ In ("Item at index " ++ nat_toString i ++ ": "
           ++ joined_errors (validate item x)) errs.
Proof.
  intros Hi Hx. rewrite validateItems_spec.
  assert (Hin : In (i, x) (filter (item_fails item) (entries array))).
  { apply filter_In. split.
    - exact (entries_from_nth array 0 i x Hi).
    - unfold item_fails. cbn. now rewrite Hx. }
  destruct (filter (item_fails item) (entries array)) as [|ix failing];
    [contradiction|].
  eexists. split; [reflexivity|].
  exact (in_map (item_entry item) _ _ Hin).
Qed.

End ArrayProperties.

(** C1, as the design document has it, fails: an element that the child
    rejects with two errors adds one entry to the errors of the array, the
    two joined by ", ", and not one entry for each of them. *)
Lemma array_child_errors_are_joined :
  let item := Schema.array Schema.string in
  let element := VArr [int 1; int 2] in
  errors (run item element)
  = Some ["Item at index 0: Value must be a string";
          "Item at index 1: Value must be a string"]
  /\ errors (run (Schema.array item) (VArr [element]))
     = Some ["Item at index 0: Item at index 0: Value must be a string, Item at index 1: Value must be a string"]
  /\ flat_map (@item_entries_per_child_error ExamplePlatform.platform item)
       (entries [element])
     = ["Item at index 0: Item at index 0: Value must be a string";
        "Item at index 0: Item at index 1: Value must be a string"]
  /\ errors (run (Schema.array item) (VArr [element]))
     <> Some (flat_map
                (@item_entries_per_child_error ExamplePlatform.platform item)
                (entries [element])).
Proof.
  cbv zeta. repeat split; try reflexivity.
  vm_compute. discriminate.
Qed.

(** ** Objects: aggregation over the declared fields *)

Section ObjectProperties.
Context {P : Platform}.

Lemma define_property_fresh (props : list (string * Value)) (key : string)
  (v : Value) :
  ~ In key (map fst props) ->
  define_property props key v = (props ++ [(key, v)])%list.
Proof.
  induction props as [|[k w] rest IH]; cbn; intros Hfresh; [reflexivity|].
  destruct (String.eqb_spec k key) as [->|Hne].
  - exfalso. apply Hfresh. now left.
  - f_equal. apply IH. intros Hin. apply Hfresh. now right.
Qed.

Lemma assign_fresh (props : list (string * Value)) (key : string) (v : Value) :
  key <> "__proto__" ->
  ~ In key (map fst props) -> assign props key v = (props ++ [(key, v)])%list.
Proof.
  intros Hkey Hfresh. unfold assign.
  destruct (String.eqb_spec key "__proto__"); [contradiction|].
  now apply define_property_fresh.
Qed.

Lemma validateFields_loop_spec (obj : Value)
  (schema : list (string * Validator)) :
  forall validatedObj errs,
    validateFields_loop validate schema obj validatedObj errs =
    (fold_left (fun acc kv => assign acc (fst kv) (snd (field_value obj kv)))
       (filter (field_kept obj) schema) validatedObj,
     (errs ++ map (field_entry obj) (filter (field_fails obj) schema))%list).
Proof.
  induction schema as [|[key validator] rest IH]; intros acc errs; cbn.
  - now rewrite app_nil_r.
  - unfold field_kept at 1, field_fails at 1, field_result. cbn.
    destruct (success (validate validator (get_property obj key))); cbn.
    + destruct (is_defined _); cbn; now rewrite IH.
    + rewrite IH. unfold push. now rewrite <- app_assoc.
Qed.

Lemma fold_assign_distinct (obj : Value) (kept : list (string * Validator)) :
  ~ In "__proto__" (map fst kept) ->
  forall acc,
    NoDup (map fst acc ++ map fst kept) ->
    fold_left (fun acc kv => assign acc (fst kv) (snd (field_value obj kv)))
      kept acc
    = (acc ++ map (field_value obj) kept)%list.
Proof.
  induction kept as [|kv rest IH]; intros Hproto acc Hnd; cbn.
  - now rewrite app_nil_r.
  - cbn in Hnd, Hproto. rewrite assign_fresh.
    + rewrite IH.
      * now rewrite <- app_assoc.
      * intros Hin. apply Hproto. now right.
      * rewrite map_app. cbn. rewrite <- app_assoc. exact Hnd.
    + intros Heq. apply Hproto. now left.
    + intros Hin. apply NoDup_remove_2 in Hnd. apply Hnd.
      apply in_or_app. now left.
Qed.

Lemma keys_filter_subset (f : string * Validator -> bool)
  (schema : list (string * Validator)) (key : string) :
  In key (map fst (filter f schema)) -> In key (map fst schema).
Proof.
  intros Hin. apply in_map_iff in Hin as [kv [Hk Hin]].
  apply filter_In in Hin as [Hin _]. rewrite <- Hk. now apply in_map.
Qed.

Lemma NoDup_keys_filter (f : string * Validator -> bool)
  (schema : list (string * Validator)) :
  NoDup (map fst schema) -> NoDup (map fst (filter f schema)).
Proof.
  induction schema as [|kv rest IH]; cbn; intros Hnd; [constructor|].
  inversion Hnd as [|k ks Hnotin Hrest]; subst.
  destruct (f kv); cbn; [|now apply IH].
  constructor; [|now apply IH].
  intros Hin. apply Hnotin.
  apply in_map_iff in Hin as [kv' [Hk Hin]].
  apply filter_In in Hin as [Hin _].
  rewrite <- Hk. now apply in_map.
Qed.

Lemma field_fails_none (obj : Value) (schema : list (string * Validator)) :
  filter (field_fails obj) schema = [] ->
  filter (field_kept obj) schema
  = filter (fun kv => is_defined (data_of (field_result obj kv))) schema.
Proof.
  induction schema as [|kv rest IH]; cbn; [reflexivity|].
  unfold field_fails at 1, field_kept at 1.
  destruct (success (field_result obj kv)); cbn; [|discriminate].
  intros H. now rewrite (IH H).
Qed.

Lemma validateFields_spec (obj : Value) (schema : list (string * Validator)) :
  NoDup (map fst schema) ->
  ~ In "__proto__" (map fst schema) ->
  validateFields validate schema obj =
  match filter (field_fails obj) schema with
  | [] =>
      createSuccess
        (VObj (map (field_value obj) (filter (field_kept obj) schema)))
  | failing => failure (map (field_entry obj) failing)
  end.
Proof.
  intros Hnd Hproto. unfold validateFields. rewrite validateFields_loop_spec.
  rewrite fold_assign_distinct.
  2: { intros Hin. apply Hproto. exact (keys_filter_subset _ _ _ Hin). }
  2: { cbn. now apply NoDup_keys_filter. }
  cbn [app].
  now destruct (filter (field_fails obj) schema).
Qed.

Lemma validateFields_loop_ext (obj obj' : Value)
  (schema : list (string * Validator)) :
  (forall key, In key (map fst schema) ->
     get_property obj' key = get_property obj key) ->
  forall validatedObj errs,
    validateFields_loop validate schema obj' validatedObj errs
    = validateFields_loop validate schema obj validatedObj errs.
Proof.
  induction schema as [|[key validator] rest IH]; intros Hsame acc errs; cbn;
    [reflexivity|].
  rewrite (Hsame key) by now left.
  assert (Hrest : forall k, In k (map fst rest) ->
                    get_property obj' k = get_property obj k)
    by (intros k Hk; apply Hsame; now right).
  destruct (success _); [destruct (is_defined _)|]; now rewrite (IH Hrest).
Qed.

Lemma ObjectValidator_validate_object (this : Base)
  (schema : list (string * Validator)) (value : Value) :
  is_object value = true ->
  validate (ObjectValidator this schema) value
  = validateFields validate schema value.
Proof.
  intros Hobj. cbn. unfold ObjectValidator_validate, handleOptional.
  unfold is_object in Hobj.
  apply andb_prop in Hobj as [Hobj Harr].
  apply andb_prop in Hobj as [Hnull Hty].
  destruct (isNullish value); [discriminate|].
  rewrite Hty. destruct (Array_isArray value); [discriminate|]. cbn.
  unfold validateFields.
  destruct (validateFields_loop validate schema value [] [])
    as [validatedObj errs].
  now destruct (0 <? List.length errs)%nat.
Qed.

(** C2, as the code has it.  On a value that is an object, an object
    validator whose schema has distinct keys, none of them "__proto__",
    checks every declared field on what the input holds under that name, as
    its own property or through its prototype (a failing field does not
    stop the others).  When no field fails the result is a success whose data is a new object
    holding, in schema order, the declared fields whose validated data is
    not [undefined], and nothing else.  Otherwise it is one failure with
    exactly one entry for each failing field, in schema order:
    "Field '<name>': " followed by the errors of the child joined by ", ".
    Properties of the input that the schema does not declare have no effect,
    and [strict()] changes nothing of this. *)
Theorem object_one_entry_per_failing_field
  (this : Base) (schema : list (string * Validator)) (value : Value) :
  NoDup (map fst schema) ->
  ~ In "__proto__" (map fst schema) ->
  is_object value = true ->
  validate (ObjectValidator this schema) value =
    match filter (field_fails value) schema with
    | [] =>
        createSuccess
          (VObj (map (field_value value) (filter (field_kept value) schema)))
    | failing => failure (map (field_entry value) failing)
    end
  /\ validate (strict (ObjectValidator this schema)) value
     = validate (ObjectValidator this schema) value
  /\ forall value',
       is_object value' = true ->
       (forall key, In key (map fst schema) ->
          get_property value' key = get_property value key) ->
       validate (strict (ObjectValidator this schema)) value'
       = validate (ObjectValidator this schema) value
       /\ validate (ObjectValidator this schema) value'
          = validate (ObjectValidator this schema) value.
Proof.
  intros Hnd Hproto Hobj. split; [|split].
  - rewrite ObjectValidator_validate_object by exact Hobj.
    now apply validateFields_spec.
  - unfold strict, withMessage, with_base.
    now rewrite !ObjectValidator_validate_object by exact Hobj.
  - intros value' Hobj' Hsame.
    unfold strict, withMessage, with_base.
    rewrite !ObjectValidator_validate_object by assumption.
    unfold validateFields.
    now rewrite (validateFields_loop_ext value value' schema Hsame).
Qed.

End ObjectProperties.

(** C2, as the design document has it, fails: a field that the child rejects
    with two errors adds one entry to the errors of the object, the two
    joined by ", ", and not one entry for each of them. *)
Lemma object_child_errors_are_joined :
  errors (run (Schema.array Schema.string) (VArr [int 1; int 2]))
  = Some ["Item at index 0: Value must be a string";
          "Item at index 1: Value must be a string"]
  /\ errors (run (Schema.object [("a", Schema.array Schema.string)])
               (VObj [("a", VArr [int 1; int 2])]))
     = Some ["Field 'a': Item at index 0: Value must be a string, Item at index 1: Value must be a string"]
  /\ flat_map
       (@field_entries_per_child_error ExamplePlatform.platform
          (VObj [("a", VArr [int 1; int 2])]))
       [("a", Schema.array Schema.string)]
     = ["Field 'a': Item at index 0: Value must be a string";
        "Field 'a': Item at index 1: Value must be a string"]
  /\ errors (run (Schema.object [("a", Schema.array Schema.string)])
               (VObj [("a", VArr [int 1; int 2])]))
     <> Some (flat_map
                (@field_entries_per_child_error ExamplePlatform.platform
                   (VObj [("a", VArr [int 1; int 2])]))
                [("a", Schema.array Schema.string)]).
Proof.
  repeat split; try reflexivity.
  vm_compute. discriminate.
Qed.

(** The theorem of C2 at a schema with an optional field and an input with an
    undeclared property: the absent optional field and the extra property
    are both left out of the data, with and without [strict()], and a second
    undeclared property changes nothing. *)
Lemma object_one_entry_per_failing_field_witness :
  let schema := [("a", Schema.string); ("b", optional Schema.number)] in
  let value := VObj [("z", int 1); ("a", VStr "x")] in
  let value' := VObj [("a", VStr "x"); ("extra", VBool true)] in
  NoDup (map fst schema)
  /\ ~ In "__proto__" (map fst schema)
  /\ is_object value = true
  /\ run (Schema.object schema) value = createSuccess (VObj [("a", VStr "x")])
  /\ run (strict (Schema.object schema)) value
     = run (Schema.object schema) value
  /\ is_object value' = true
  /\ (forall key, In key (map fst schema) ->
        @get_property ExamplePlatform.platform value' key
        = @get_property ExamplePlatform.platform value key)
  /\ run (strict (Schema.object schema)) value'
     = run (Schema.object schema) value.
Proof.
  cbv zeta.
  assert (Hnd : NoDup (map fst [("a", Schema.string);
                                ("b", optional Schema.number)])).
  { cbn. repeat constructor; cbn; intuition discriminate. }
  assert (Hproto : ~ In "__proto__"
                       (map fst [("a", Schema.string);
                                 ("b", optional Schema.number)])).
  { cbn. intuition discriminate. }
  assert (Hsame : forall key,
             In key (map fst [("a", Schema.string);
                              ("b", optional Schema.number)]) ->
             @get_property ExamplePlatform.platform
               (VObj [("a", VStr "x"); ("extra", VBool true)]) key
             = @get_property ExamplePlatform.platform
                 (VObj [("z", int 1); ("a", VStr "x")]) key).
  { intros key [<-|[<-|[]]]; reflexivity. }
  split; [exact Hnd|]. split; [exact Hproto|]. split; [reflexivity|].
  destruct (@object_one_entry_per_failing_field ExamplePlatform.platform
              new_Base [("a", Schema.string); ("b", optional Schema.number)]
              (VObj [("z", int 1); ("a", VStr "x")]) Hnd Hproto eq_refl)
    as [Hresult [Hstrict Hextra]].
  split; [exact Hresult|]. split; [exact Hstrict|].
  split; [reflexivity|]. split; [exact Hsame|].
  exact (proj1 (Hextra (VObj [("a", VStr "x"); ("extra", VBool true)])
                  eq_refl Hsame)).
Defined.

(** ** Presence and custom messages *)

Section Messages.
Context {P : Platform}.

Lemma or_else_reported (custom : option string) (default : string) :
  or_else custom default = reported custom default.
Proof. now destruct custom as [[|c m]|]. Qed.

Lemma createError_failure (this : Base) (default : string) :
  createError this default
  = failure [reported (_customMessage this) default].
Proof. unfold createError, failure. now rewrite or_else_reported. Qed.

Lemma reported_custom (m default : string) :
  m <> "" -> reported (Some m) default = m.
Proof.
  intros Hm. cbn. destruct (String.eqb_spec m ""); [contradiction|reflexivity].
Qed.

(** C4, as the code has it.  On [null] and on [undefined] every validator
    returns a success with data [undefined] when [optional()] was set;
    otherwise it fails with one error, which is the custom message when one
    is set and is not the empty string, and "Value is required" in every
    other case. *)
Theorem nullish_input_presence (v : Validator) :
  validate v VNull
  = (if _optional (base_of v) then createSuccess VUndefined
     else failure [reported (_customMessage (base_of v)) "Value is required"])
  /\ validate v VUndefined
     = (if _optional (base_of v) then createSuccess VUndefined
        else failure
               [reported (_customMessage (base_of v)) "Value is required"]).
Proof.
  split; destruct v as [b ? ? ?|b ? ? ? ?|b|b ? ?|b ? ? ?|b ?|b ?|b ?]; cbn;
    unfold StringValidator_validate, NumberValidator_validate,
      BooleanValidator_validate, DateValidator_validate,
      ArrayValidator_validate, ObjectValidator_validate,
      UnionValidator_validate, LiteralValidator_validate, handleOptional;
    cbn; destruct (_optional b); try reflexivity;
    apply createError_failure.
Qed.

Lemma first_success_existsb (alternatives : list Validator) (value : Value) :
  match first_success validate alternatives value with
  | Some r =>
      existsb (fun alt => success (validate alt value)) alternatives = true
  | None =>
      existsb (fun alt => success (validate alt value)) alternatives = false
  end.
Proof.
  induction alternatives as [|alt rest IH]; cbn; [reflexivity|].
  destruct (success (validate alt value)); [reflexivity|exact IH].
Qed.

End Messages.

(** ** Custom messages *)

Section CustomMessage.
Context {P : Platform}.

Ltac unfold_validate :=
  cbn;
  unfold StringValidator_validate, NumberValidator_validate,
    BooleanValidator_validate, DateValidator_validate,
    ArrayValidator_validate, ObjectValidator_validate,
    UnionValidator_validate, LiteralValidator_validate, parseDate,
    handleOptional, validateType, own_failure, createPatternError;
  cbn.

Ltac finish := rewrite ?createError_failure; try reflexivity.

Lemma validate_set_message (v : Validator) (custom : option string)
  (value : Value) :
  validate (set_message custom v) value =
  match own_failure v value with
  | Some default => failure [reported custom default]
  | None => validate (set_message None v) value
  end.
Proof.
  destruct v as [b mn mx p|b mn mx i p|b|b mn mx|b mn mx item|b schema
                |b alternatives|b lit].
  - destruct value as [| | |n|s|t|items|props|[] id]; unfold_validate; try (destruct (_optional b)); finish.
    all: destruct (validateLength _ mn mx "String"); finish.
    all: destruct p as [regex|]; finish.
    all: match goal with |- context [negb (?r ?x)] =>
           destruct (r x); cbn; finish end.
  - destruct value as [| | |[| |]|s|t|items|props|[] id]; unfold_validate;
      try (destruct (_optional b)); finish.
    all: destruct (validateRange _ mn mx "Number"); finish.
    all: destruct (i && _); finish.
    all: destruct (p && _); finish.
  - destruct value as [| | |n|s|t|items|props|[] id]; unfold_validate;
      try (destruct (_optional b)); finish.
  - destruct value as [| | |n|s|[t|]|items|props|[] id]; unfold_validate;
      try (destruct (_optional b)); finish.
    all: try (destruct (Date_of_number n)); try (destruct (Date_parse s));
      cbn; finish.
    all: try (destruct (validateDateRange mn mx _); finish).
  - destruct value as [| | |n|s|t|items|props|[] id]; unfold_validate; try (destruct (_optional b)); finish.
    all: destruct (validateLength _ mn mx "Array"); finish.
  - destruct value as [| | |n|s|t|items|props|[] id]; unfold_validate; try (destruct (_optional b)); finish.
  - pose proof (first_success_existsb alternatives value) as Hfs.
    destruct value as [| | |n|s|t|items|props|[] id]; unfold_validate; try (destruct (_optional b)); finish.
    all: destruct (first_success validate alternatives _);
      rewrite Hfs; finish.
  - destruct value as [| | |n|s|t|items|props|[] id]; unfold_validate; try (destruct (_optional b)); finish.
    all: destruct lit; cbn; finish.
    all: match goal with |- context [if negb ?c then _ else _] =>
           destruct c; cbn; finish end.
Qed.

(** C3, as the code has it.  When the validator raises a failure of its own
    on the input (a missing value, a wrong type, a violated constraint), the
    validator without custom message reports the default message of that
    failure, and the validator with a custom message that is not the empty
    string reports the custom message and nothing else.  When it raises
    none, the custom message changes nothing: the data of a success and the
    errors that an array or an object gathers from its elements or fields
    are those of the validator without custom message. *)
Theorem custom_message_replaces_own_failure (v : Validator) (m : string)
  (value : Value) :
  m <> "" ->
  match own_failure v value with
  | Some default =>
      validate (without_message v) value = failure [default]
      /\ validate (withMessage m v) value = failure [m]
  | None =>
      validate (withMessage m v) value = validate (without_message v) value
  end.
Proof.
  intros Hm.
  change (withMessage m v) with (set_message (Some m) v).
  change (without_message v) with (set_message None v).
  rewrite (validate_set_message v (Some m)).
  rewrite (validate_set_message v None).
  destruct (own_failure v value) as [default|]; [|reflexivity].
  split; [reflexivity|]. now rewrite reported_custom.
Qed.

End CustomMessage.

(** C3, as the design document has it, fails: a validator whose custom
    message was set to the empty string raises its type failure with the
    default message. *)
Lemma empty_custom_message_is_not_reported :
  _customMessage (base_of (withMessage "" Schema.string)) = Some ""
  /\ errors (run (withMessage "" Schema.string) (int 1))
     = Some ["Value must be a string"]
  /\ errors (run (withMessage "" Schema.string) (int 1)) <> Some [""].
Proof. repeat split. vm_compute. discriminate. Qed.

(** The theorem of C3 on a string validator that rejects a number, and on an
    array validator whose element is rejected. *)
Lemma custom_message_replaces_own_failure_witness :
  "Name is required" <> ""
  /\ run (withMessage "Name is required" Schema.string) (int 123)
     = failure ["Name is required"]
  /\ run (withMessage "Name is required" (Schema.array Schema.string))
       (VArr [int 123])
     = failure ["Item at index 0: Value must be a string"].
Proof.
  assert (Hm : "Name is required" <> "") by discriminate.
  split; [exact Hm|]. split.
  - exact (proj2 (@custom_message_replaces_own_failure
                    ExamplePlatform.platform Schema.string
                    "Name is required" (int 123) Hm)).
  - exact (@custom_message_replaces_own_failure
             ExamplePlatform.platform (Schema.array Schema.string)
             "Name is required" (VArr [int 123]) Hm).
Defined.

(** C4, as the design document has it, fails: with the empty string as
    custom message a missing value is reported as "Value is required". *)
Lemma empty_custom_message_on_missing_value :
  _customMessage (base_of (withMessage "" Schema.string)) = Some ""
  /\ run (withMessage "" Schema.string) VUndefined
     = failure ["Value is required"]
  /\ run (withMessage "" Schema.string) VUndefined <> failure [""].
Proof. repeat split. vm_compute. discriminate. Qed.

(** ** Unions *)

Section UnionProperties.
Context {P : Platform}.

Lemma first_success_find (alternatives : list Validator) (value : Value) :
  first_success validate alternatives value
  = option_map (fun alt => validate alt value)
      (find (fun alt => success (validate alt value)) alternatives).
Proof.
  induction alternatives as [|alt rest IH]; cbn; [reflexivity|].
  destruct (success (validate alt value)); [reflexivity|exact IH].
Qed.

Lemma find_none_permutation {A : Type} (f : A -> bool) (l l' : list A) :
  Permutation l l' -> find f l = None -> find f l' = None.
Proof.
  intros Hperm Hnone.
  destruct (find f l') as [x|] eqn:Hfind; [|reflexivity].
  apply find_some in Hfind as [Hin Hfx].
  apply (Permutation_in _ (Permutation_sym Hperm)) in Hin.
  rewrite (find_none _ _ Hnone _ Hin) in Hfx. discriminate.
Qed.

Lemma UnionValidator_validate_find (this : Base)
  (alternatives : list Validator) (value : Value) :
  isNullish value = false ->
  validate (UnionValidator this alternatives) value =
  match find (fun alt => success (validate alt value)) alternatives with
  | Some alt => validate alt value
  | None =>
      failure [reported (_customMessage this)
                 "Value does not match any of the allowed types"]
  end.
Proof.
  intros Hvalue. cbn. unfold UnionValidator_validate, handleOptional.
  rewrite Hvalue, first_success_find.
  destruct (find _ alternatives); cbn; [reflexivity|].
  apply createError_failure.
Qed.

(** C5, as the code has it.  On an input that is neither [null] nor
    [undefined], a union validator returns the result of the first
    alternative of its list that succeeds, as that alternative returned it.
    When no alternative succeeds it fails with one error, whatever the order
    of the alternatives: the custom message when one is set and is not the
    empty string, and "Value does not match any of the allowed types"
    otherwise; the errors of the alternatives are dropped. *)
Theorem union_first_success (this : Base) (alternatives : list Validator)
  (value : Value) :
  isNullish value = false ->
  validate (UnionValidator this alternatives) value =
    match find (fun alt => success (validate alt value)) alternatives with
    | Some alt => validate alt value
    | None =>
        failure [reported (_customMessage this)
                   "Value does not match any of the allowed types"]
    end
  /\ forall reordered,
       Permutation alternatives reordered ->
       find (fun alt => success (validate alt value)) alternatives = None ->
       validate (UnionValidator this reordered) value
       = failure [reported (_customMessage this)
                    "Value does not match any of the allowed types"].
Proof.
  intros Hvalue. split; [now apply UnionValidator_validate_find|].
  intros reordered Hperm Hnone.
  rewrite UnionValidator_validate_find by exact Hvalue.
  now rewrite (find_none_permutation _ _ _ Hperm Hnone).
Qed.

End UnionProperties.

(** C5, as the design document has it, fails: a union with a custom message
    reports that message when no alternative matches. *)
Lemma union_failure_reports_custom_message :
  errors (run (withMessage "Invalid id" (Schema.union [Schema.string]))
            (int 1))
  = Some ["Invalid id"]
  /\ errors (run (withMessage "Invalid id" (Schema.union [Schema.string]))
               (int 1))
     <> Some ["Value does not match any of the allowed types"].
Proof. split; [reflexivity|]. vm_compute. discriminate. Qed.

(** The theorem of C5 on a literal followed by a string validator, and on a
    number that neither accepts. *)
Lemma union_first_success_witness :
  isNullish (VStr "x") = false
  /\ run (Schema.union [Schema.literal (LStr "x"); Schema.string]) (VStr "x")
     = run (Schema.literal (LStr "x")) (VStr "x")
  /\ isNullish (int 1) = false
  /\ run (Schema.union [Schema.literal (LStr "x"); Schema.string]) (int 1)
     = failure ["Value does not match any of the allowed types"].
Proof.
  split; [reflexivity|]. split.
  - exact (proj1 (@union_first_success ExamplePlatform.platform new_Base
                    [Schema.literal (LStr "x"); Schema.string] (VStr "x")
                    eq_refl)).
  - split; [reflexivity|].
    exact (proj1 (@union_first_success ExamplePlatform.platform new_Base
                    [Schema.literal (LStr "x"); Schema.string] (int 1)
                    eq_refl)).
Defined.

(** ** Numbers *)

Section NumberProperties.
Context {P : Platform}.

Lemma num_lt_Finite (p q : Q) :
  num_lt (Finite p) (Finite q) = true <-> (p < q)%Q.
Proof.
  cbn. rewrite Qlt_alt. destruct (p ?= q)%Q; split; congruence.
Qed.

Lemma num_le_Finite (p q : Q) :
  num_le (Finite p) (Finite q) = true <-> (p <= q)%Q.
Proof.
  cbn. rewrite Qle_alt. destruct (p ?= q)%Q; split; congruence.
Qed.

(** The bounds are inclusive: a number does not violate a bound it equals. *)
Lemma range_bounds_inclusive (n : JSNumber) (type : string) :
  validateRange n (Some n) (Some n) type = None.
Proof.
  unfold validateRange, num_gt.
  assert (H : num_lt n n = false).
  { destruct n as [|[]|q]; cbn; try reflexivity.
    now rewrite (proj1 (Qeq_alt q q) (Qeq_refl q)). }
  now rewrite H.
Qed.

(** [positive()] rejects zero and accepts every finite number above it. *)
Lemma positive_is_strict (q : Q) :
  num_le (Finite q) (num_of_Z 0) = false <-> (0 < q)%Q.
Proof.
  unfold num_of_Z. split; intros H.
  - apply Qnot_le_lt. intros Hle.
    apply (proj2 (num_le_Finite q (inject_Z 0))) in Hle.
    rewrite H in Hle. discriminate.
  - destruct (num_le (Finite q) (Finite (inject_Z 0))) eqn:Hle;
      [|reflexivity].
    apply (proj1 (num_le_Finite q (inject_Z 0))) in Hle. exfalso.
    exact (Qlt_not_le _ _ H Hle).
Qed.

Lemma validateRange_first_violated (mn mx : option JSNumber) (n : JSNumber) :
  validateRange n mn mx "Number"
  = first_violated (at_least mn ++ no_more_than mx)%list n.
Proof.
  unfold validateRange, first_violated.
  destruct mn as [m|], mx as [x|]; cbn;
    repeat match goal with
           | |- context [if ?c then _ else _] => destruct c; cbn
           end; reflexivity.
Qed.

(** C6.  On a number that is not NaN, a number validator checks its
    configured constraints in one fixed order: the lower bound and the upper
    bound of the range (both inclusive), the integer constraint, the
    positive constraint (strictly above zero).  The first constraint of that
    order that the number violates gives the only error of the result, and
    the number is returned as data when it violates none. *)
Theorem number_constraints_in_order
  (this : Base) (mn mx : option JSNumber) (i p : bool) (num : JSNumber) :
  isNaN num = false ->
  validate (NumberValidator this mn mx i p) (VNum num) =
  match first_violated (number_constraints mn mx i p) num with
  | Some message => failure [reported (_customMessage this) message]
  | None => createSuccess (VNum num)
  end.
Proof.
  intros Hnum. cbn. unfold NumberValidator_validate. cbn. rewrite Hnum. cbn.
  rewrite validateRange_first_violated.
  unfold number_constraints, first_violated.
  destruct mn as [m|], mx as [x|], i, p; cbn;
    repeat match goal with
           | |- context [if ?c then _ else _] => destruct c; cbn
           end; rewrite ?createError_failure; reflexivity.
Qed.

(** C10.  A number validator without range, integer or positive constraint
    accepts every value whose type is number except NaN, the two infinities
    included, and returns the input as data. *)
Theorem unconstrained_number_accepts (this : Base) (value : Value) :
  typeof value = "number" ->
  validate (NumberValidator this None None false false) value =
  if isNaN (as_number value)
  then failure [reported (_customMessage this) "Value must be a number"]
  else createSuccess value.
Proof.
  intros Hty.
  destruct value as [| | |n|s|t|items|props|[] id]; try discriminate.
  cbn. unfold NumberValidator_validate. cbn.
  destruct (isNaN n); cbn; [apply createError_failure|reflexivity].
Qed.

End NumberProperties.

(** The theorem of C6 on the validator and the inputs of the design
    document. *)
Lemma number_constraints_in_order_witness :
  isNaN (num_of_Z (-1)) = false
  /\ run (max (num_of_Z 100) (min (num_of_Z 0) Schema.number)) (int (-1))
     = failure ["Number must be at least 0"]
  /\ run (max (num_of_Z 100) (min (num_of_Z 0) Schema.number)) (int 150)
     = failure ["Number must be no more than 100"]
  /\ run (max (num_of_Z 100) (min (num_of_Z 0) Schema.number)) (int 50)
     = createSuccess (int 50)
  /\ run (positive (integer (min (num_of_Z 0) Schema.number)))
       (VNum (Finite (-1 # 2)))
     = failure ["Number must be at least 0"]
  /\ run (positive (integer Schema.number)) (VNum (Finite (-1 # 2)))
     = failure ["Number must be an integer"]
  /\ run (positive (integer Schema.number)) (int 0)
     = failure ["Number must be positive"].
Proof.
  split; [reflexivity|].
  split; [exact (@number_constraints_in_order ExamplePlatform.platform
                   new_Base (Some (num_of_Z 0)) (Some (num_of_Z 100))
                   false false (num_of_Z (-1)) eq_refl)|].
  split; [exact (@number_constraints_in_order ExamplePlatform.platform
                   new_Base (Some (num_of_Z 0)) (Some (num_of_Z 100))
                   false false (num_of_Z 150) eq_refl)|].
  split; [exact (@number_constraints_in_order ExamplePlatform.platform
                   new_Base (Some (num_of_Z 0)) (Some (num_of_Z 100))
                   false false (num_of_Z 50) eq_refl)|].
  split; [exact (@number_constraints_in_order ExamplePlatform.platform
                   new_Base (Some (num_of_Z 0)) None
                   true true (Finite (-1 # 2)) eq_refl)|].
  split; [exact (@number_constraints_in_order ExamplePlatform.platform
                   new_Base None None true true (Finite (-1 # 2)) eq_refl)|].
  exact (@number_constraints_in_order ExamplePlatform.platform
           new_Base None None true true (num_of_Z 0) eq_refl).
Defined.

(** The theorem of C10 on the two infinities and on NaN. *)
Lemma unconstrained_number_accepts_witness :
  typeof (VNum (Infinity false)) = "number"
  /\ run Schema.number (VNum (Infinity false))
     = createSuccess (VNum (Infinity false))
  /\ run Schema.number (VNum (Infinity true))
     = createSuccess (VNum (Infinity true))
  /\ run Schema.number (VNum NaN) = failure ["Value must be a number"].
Proof.
  split; [reflexivity|].
  split; [exact (@unconstrained_number_accepts ExamplePlatform.platform
                   new_Base (VNum (Infinity false)) eq_refl)|].
  split; [exact (@unconstrained_number_accepts ExamplePlatform.platform
                   new_Base (VNum (Infinity true)) eq_refl)|].
  exact (@unconstrained_number_accepts ExamplePlatform.platform
           new_Base (VNum NaN) eq_refl).
Defined.

(** ** Dates *)

Section DateProperties.
Context {P : Platform}.

Lemma parseDate_new_Date (this : Base) (value : Value) :
  parseDate this value =
  match new_Date value with
  | Some (Some t) => createSuccess (VDate (Some t))
  | Some None =>
      failure [reported (_customMessage this) "Value must be a valid date"]
  | None =>
      failure [reported (_customMessage this)
                 "Value must be a Date, string, or number"]
  end.
Proof.
  unfold parseDate, new_Date.
  destruct value as [| | |n|s|t|items|props|ty id];
    try apply createError_failure.
  - destruct (Date_of_number n); [reflexivity|apply createError_failure].
  - destruct (Date_parse s); [reflexivity|apply createError_failure].
  - destruct t; [reflexivity|apply createError_failure].
Qed.

(** C7, as the code has it.  On an input that is neither [null] nor
    [undefined], a date validator takes a [Date] object as it is and turns a
    string or a number into a date with the platform constructor.  A valid
    date goes on to the bounds of the validator and, within them, is the data
    of the success.  An invalid date and an input of another type each fail
    with one error: the custom message when one is set and is not the empty
    string, as [future()], [past()] and [withMessage] set one, and otherwise
    "Value must be a valid date" for the first and
    "Value must be a Date, string, or number" for the second.  So
    [Schema.date()] on "2023-01-01", a string the platform reads as a date,
    succeeds with the date the constructor gives. *)
Theorem date_conversion_and_failures
  (this : Base) (mn mx : option (option Z)) (value : Value) :
  isNullish value = false ->
  validate (DateValidator this mn mx) value =
    match new_Date value with
    | Some (Some t) =>
        match validateDateRange mn mx (Some t) with
        | Some rangeError =>
            failure [reported (_customMessage this) rangeError]
        | None => createSuccess (VDate (Some t))
        end
    | Some None =>
        failure [reported (_customMessage this) "Value must be a valid date"]
    | None =>
        failure [reported (_customMessage this)
                   "Value must be a Date, string, or number"]
    end
  /\ (Date_parse "2023-01-01" <> None ->
      validate Schema.date (VStr "2023-01-01")
      = createSuccess (VDate (Date_parse "2023-01-01"))).
Proof.
  intros Hvalue. split.
  - cbn. unfold DateValidator_validate, handleOptional. rewrite Hvalue.
    cbn zeta. rewrite parseDate_new_Date.
    destruct (new_Date value) as [[t|]|]; cbn; try reflexivity.
    destruct (validateDateRange mn mx (Some t)); [|reflexivity].
    apply createError_failure.
  - intros Hvalid. cbn. unfold DateValidator_validate, parseDate. cbn.
    destruct (Date_parse "2023-01-01"); [reflexivity|contradiction].
Qed.

End DateProperties.

(** C7, as the design document has it, fails: after [future()] a string that
    is not a date, and a boolean, are both reported with the message of
    [future()]. *)
Lemma date_failures_report_custom_message :
  ExamplePlatform.parse "not a date" = None
  /\ errors (run (future 1700000000000 Schema.date) (VStr "not a date"))
     = Some ["Date must be in the future"]
  /\ errors (run (future 1700000000000 Schema.date) (VStr "not a date"))
     <> Some ["Value must be a valid date"]
  /\ errors (run (future 1700000000000 Schema.date) (VBool true))
     = Some ["Date must be in the future"]
  /\ errors (run (future 1700000000000 Schema.date) (VBool true))
     <> Some ["Value must be a Date, string, or number"].
Proof. repeat split; vm_compute; discriminate. Qed.

(** The theorem of C7 on the example platform: the date of the design
    document, a [Date] object, a date below its bound, and two inputs that
    are no dates. *)
Lemma date_conversion_and_failures_witness :
  isNullish (VStr "2023-01-01") = false
  /\ @Date_parse ExamplePlatform.platform "2023-01-01" <> None
  /\ run Schema.date (VStr "2023-01-01")
     = createSuccess (VDate (Some 1672531200000%Z))
  /\ run Schema.date (VDate (Some 1672531200000%Z))
     = createSuccess (VDate (Some 1672531200000%Z))
  /\ run (min_date (Some 1577836800000%Z) Schema.date) (VStr "2019-01-01")
     = failure ["Date must be after 2020-01-01T00:00:00.000Z"]
  /\ run Schema.date (VStr "not a date")
     = failure ["Value must be a valid date"]
  /\ run Schema.date (VBool true)
     = failure ["Value must be a Date, string, or number"].
Proof.
  assert (Hvalid : @Date_parse ExamplePlatform.platform "2023-01-01" <> None)
    by discriminate.
  split; [reflexivity|]. split; [exact Hvalid|].
  split; [exact (proj2 (@date_conversion_and_failures
                          ExamplePlatform.platform new_Base None None
                          (VStr "2023-01-01") eq_refl) Hvalid)|].
  split; [exact (proj1 (@date_conversion_and_failures
                          ExamplePlatform.platform new_Base None None
                          (VDate (Some 1672531200000%Z)) eq_refl))|].
  split; [exact (proj1 (@date_conversion_and_failures
                          ExamplePlatform.platform new_Base
                          (Some (Some 1577836800000%Z)) None
                          (VStr "2019-01-01") eq_refl))|].
  split; [exact (proj1 (@date_conversion_and_failures
                          ExamplePlatform.platform new_Base None None
                          (VStr "not a date") eq_refl))|].
  exact (proj1 (@date_conversion_and_failures
                  ExamplePlatform.platform new_Base None None
                  (VBool true) eq_refl)).
Defined.

(** ** The shape of every result *)

Section ResultInvariant.
Context {P : Platform}.

Lemma well_formed_createError (this : Base) (message : string) :
  well_formed (createError this message).
Proof. unfold well_formed, createError. cbn. split; eauto. Qed.

Lemma well_formed_createSuccess (d : Value) :
  well_formed (createSuccess d).
Proof. unfold well_formed, createSuccess. cbn. split; eauto. Qed.

Lemma well_formed_handleOptional (this : Base) (value : Value)
  (r : ValidationResult) :
  handleOptional this value = Some r -> well_formed r.
Proof.
  unfold handleOptional.
  destruct (isNullish value); [|discriminate].
  destruct (_optional this); intros [= <-];
    [apply well_formed_createSuccess|apply well_formed_createError].
Qed.

Lemma well_formed_validateItems (item_validate : Value -> ValidationResult)
  (array : list Value) :
  well_formed (validateItems item_validate array).
Proof.
  unfold validateItems.
  destruct (validateItems_loop item_validate array 0 [] [])
    as [validatedItems [|e rest]]; cbn.
  - apply well_formed_createSuccess.
  - unfold well_formed. cbn. split; eauto.
Qed.

Lemma well_formed_validateFields {V : Type}
  (child_validate : V -> Value -> ValidationResult)
  (schema : list (string * V)) (obj : Value) :
  well_formed (validateFields child_validate schema obj).
Proof.
  unfold validateFields.
  destruct (validateFields_loop child_validate schema obj [] [])
    as [validatedObj [|e rest]]; cbn.
  - apply well_formed_createSuccess.
  - unfold well_formed. cbn. split; eauto.
Qed.

Lemma well_formed_first_success (alternatives : list Validator)
  (value : Value) (r : ValidationResult) :
  Forall (fun alt => forall x, well_formed (validate alt x)) alternatives ->
  first_success validate alternatives value = Some r -> well_formed r.
Proof.
  induction 1 as [|alt rest Halt _ IH]; cbn; [discriminate|].
  destruct (success (validate alt value)); [|exact IH].
  intros [= <-]. apply Halt.
Qed.

Create HintDb results.

#[local] Hint Resolve well_formed_createError well_formed_createSuccess
  well_formed_validateItems well_formed_validateFields : results.

(** C8.  Whatever the validator and the input, the result is well formed:
    a failure carries a sequence of errors that is not empty, and no data;
    a success carries data, which may be [undefined], and no errors. *)
Theorem validate_result_well_formed (v : Validator) (value : Value) :
  well_formed (validate v value).
Proof.
  revert value.
  induction v as [b mn mx p|b mn mx i p|b|b mn mx|b mn mx item IH|b schema IH
                 |b alternatives IH|b lit] using Validator_nested_ind;
    intros value; cbn;
    unfold StringValidator_validate, NumberValidator_validate,
      BooleanValidator_validate, DateValidator_validate,
      ArrayValidator_validate, ObjectValidator_validate,
      UnionValidator_validate, LiteralValidator_validate;
    (destruct (handleOptional b value) as [r|] eqn:Hopt;
     [exact (well_formed_handleOptional _ _ _ Hopt)|]).
  - unfold validateType.
    destruct (negb (typeof value =? "string")); auto with results.
    destruct (validateLength _ mn mx "String"); auto with results.
    destruct p as [regex|]; auto with results.
    destruct (negb (regex _)); auto with results.
  - destruct (_ || _); auto with results.
    destruct (validateRange _ mn mx "Number"); auto with results.
    destruct (i && _); auto with results.
    destruct (p && _); auto with results.
  - unfold validateType.
    destruct (negb (typeof value =? "boolean")); auto with results.
  - cbn zeta. rewrite parseDate_new_Date.
    destruct (new_Date value) as [[t|]|]; cbn;
      try (unfold well_formed; cbn; split; eauto; fail).
    destruct (validateDateRange mn mx (Some t)); auto with results.
  - destruct (negb (Array_isArray value)); auto with results.
    destruct (validateLength _ mn mx "Array"); auto with results.
    cbn zeta.
    destruct (negb (success (validateItems (validate item) (as_array value))));
      auto with results.
  - destruct (_ || _); auto with results.
    cbn zeta.
    destruct (negb (success (validateFields validate schema value)));
      auto with results.
  - destruct (first_success validate alternatives value) as [r|] eqn:Hfs;
      auto with results.
    exact (well_formed_first_success _ _ _ IH Hfs).
  - destruct (negb (strict_eq value lit)); auto with results.
Qed.

End ResultInvariant.

(** ** [strict()] *)

Section StrictProperties.
Context {P : Platform}.

(** C9.  [strict()] sets the custom message of the object validator, so
    after it every failure the validator raises by itself carries
    "Object contains unexpected properties": the missing value of a validator
    that is not optional, and the value that is not an object, which carry
    "Value is required" and "Value must be an object" (or the earlier custom
    message) without it.  On an object the result is that of the validation
    of the fields, with and without [strict()]: the errors gathered from the
    fields are the same. *)
Theorem strict_replaces_own_messages
  (this : Base) (schema : list (string * Validator)) (value : Value) :
  validate (strict (ObjectValidator this schema)) value =
    (if isNullish value
     then if _optional this then createSuccess VUndefined
          else failure ["Object contains unexpected properties"]
     else if is_object value
     then validateFields validate schema value
     else failure ["Object contains unexpected properties"])
  /\ validate (ObjectValidator this schema) value =
       (if isNullish value
        then if _optional this then createSuccess VUndefined
             else failure [reported (_customMessage this) "Value is required"]
        else if is_object value
        then validateFields validate schema value
        else failure [reported (_customMessage this)
                        "Value must be an object"]).
Proof.
  split.
  - destruct (isNullish value) eqn:Hnull.
    + cbn. unfold ObjectValidator_validate, handleOptional. rewrite Hnull.
      cbn. now destruct (_optional this).
    + destruct (is_object value) eqn:Hobj.
      * unfold strict, withMessage, with_base.
        now apply ObjectValidator_validate_object.
      * unfold is_object in Hobj. rewrite Hnull in Hobj. cbn in Hobj.
        cbn. unfold ObjectValidator_validate, handleOptional.
        rewrite Hnull.
        destruct (typeof value =? "object"), (Array_isArray value);
          try discriminate; reflexivity.
  - destruct (isNullish value) eqn:Hnull.
    + cbn. unfold ObjectValidator_validate, handleOptional. rewrite Hnull.
      destruct (_optional this); [reflexivity|apply createError_failure].
    + destruct (is_object value) eqn:Hobj.
      * now apply ObjectValidator_validate_object.
      * unfold is_object in Hobj. rewrite Hnull in Hobj. cbn in Hobj.
        cbn. unfold ObjectValidator_validate, handleOptional.
        rewrite Hnull.
        destruct (typeof value =? "object"), (Array_isArray value);
          try discriminate; apply createError_failure.
Qed.

End StrictProperties.

(** ** The assertions of the test suite

    What test-suite.ts asserts of the library, read on the embedding. *)

Example test_string_length_constraints :
  let validator := maxLength (num_of_Z 10) (minLength (num_of_Z 3)
                                              Schema.string) in
  run validator (VStr "abc") = createSuccess (VStr "abc")
  /\ run validator (VStr "ab")
     = failure ["String must have at least 3 characters long"]
  /\ run validator (VStr "abcdefghijk")
     = failure ["String must have no more than 10 characters long"].
Proof. repeat split. Qed.

Example test_string_custom_message :
  let customValidator := withMessage "Custom string error" Schema.string in
  run customValidator (int 123) = failure ["Custom string error"]
  /\ run customValidator VNull = failure ["Custom string error"].
Proof. repeat split. Qed.

Example test_number_combined_constraints :
  let validator :=
    positive (integer (max (num_of_Z 10) (min (num_of_Z 1) Schema.number))) in
  run validator (int 1) = createSuccess (int 1)
  /\ run validator (int 10) = createSuccess (int 10)
  /\ run validator (int 0) = failure ["Number must be at least 1"]
  /\ run validator (int 11) = failure ["Number must be no more than 10"]
  /\ run validator (VNum (Finite (11 # 2)))
     = failure ["Number must be an integer"].
Proof. repeat split. Qed.

Example test_date_invalid_dates :
  run Schema.date (VStr "2023-13-01") = failure ["Value must be a valid date"]
  /\ run Schema.date (VObj [])
     = failure ["Value must be a Date, string, or number"]
  /\ run Schema.date (VArr [])
     = failure ["Value must be a Date, string, or number"]
  /\ run Schema.date VNull = failure ["Value is required"]
  /\ run Schema.date (int 1672531200000)
     = createSuccess (VDate (Some 1672531200000%Z)).
Proof. repeat split. Qed.

Example test_array_item_validation :
  let validator := Schema.array Schema.string in
  run validator (VArr [VStr "hello"; int 123; VBool true])
  = failure ["Item at index 1: Value must be a string";
             "Item at index 2: Value must be a string"]
  /\ run validator (VArr [VStr "hello"; VNull; VStr "world"])
     = failure ["Item at index 1: Value is required"]
  /\ run (nonEmpty validator) (VArr []) = failure ["Array cannot be empty"]
  /\ run (maxLength (num_of_Z 4) (minLength (num_of_Z 2) validator))
       (VArr [VStr "a"])
     = failure ["Array must have at least 2 items"].
Proof. repeat split. Qed.

Example test_object_field_errors :
  run (Schema.object [("required", Schema.string)]) (VObj [])
  = failure ["Field 'required': Value is required"]
  /\ run (Schema.object [("a", Schema.string); ("b", Schema.number)])
       (VObj [("a", int 1); ("b", VStr "x")])
     = failure ["Field 'a': Value must be a string";
                "Field 'b': Value must be a number"]
  /\ run (Schema.object [("name", Schema.string)])
       (VObj [("name", VStr "John"); ("extraField", VStr "should be ignored")])
     = createSuccess (VObj [("name", VStr "John")]).
Proof. repeat split. Qed.

Example test_union_of_literals :
  let statusValidator :=
    Schema.union [Schema.literal (LStr "active");
                  Schema.literal (LStr "inactive")] in
  run statusValidator (VStr "active") = createSuccess (VStr "active")
  /\ run statusValidator (VStr "unknown")
     = failure ["Value does not match any of the allowed types"]
  /\ run statusValidator (VObj [])
     = failure ["Value does not match any of the allowed types"].
Proof. repeat split. Qed.

(** * Further properties of the library *)

(** ** [optional()] *)

Section OptionalProperties.
Context {P : Platform}.

Ltac unfold_methods :=
  cbn;
  unfold StringValidator_validate, NumberValidator_validate,
    BooleanValidator_validate, DateValidator_validate,
    ArrayValidator_validate, ObjectValidator_validate,
    UnionValidator_validate, LiteralValidator_validate, parseDate,
    handleOptional, validateType, createError;
  cbn.

Lemma validate_nullish (v : Validator) (value : Value) :
  isNullish value = true ->
  validate v value
  = (if _optional (base_of v) then createSuccess VUndefined
     else createError (base_of v) "Value is required").
Proof.
  intros Hnull.
  destruct v as [b ? ? ?|b ? ? ? ?|b|b ? ?|b ? ? ?|b ?|b ?|b ?];
    unfold_methods; rewrite Hnull; now destruct (_optional b).
Qed.

Lemma validate_optional_present (v : Validator) (value : Value) :
  isNullish value = false ->
  validate (optional v) value = validate v value.
Proof.
  intros Hvalue.
  destruct v; unfold_methods; rewrite Hvalue; reflexivity.
Qed.

(** [optional()] changes the result on [null] and [undefined] only: on every
    other input the optional validator returns what the validator returned
    before, the same data or the same errors; and on [null] and [undefined]
    it returns a success whose data is [undefined], for [null] too. *)
Theorem optional_changes_nullish_only (v : Validator) (value : Value) :
  validate (optional v) value
  = (if isNullish value then createSuccess VUndefined else validate v value).
Proof.
  destruct (isNullish value) eqn:Hvalue.
  - rewrite validate_nullish by exact Hvalue. now destruct v.
  - now apply validate_optional_present.
Qed.

End OptionalProperties.

(** ** Unions of unions, of optional validators and of literals *)

Section UnionComposition.
Context {P : Platform}.

Lemma first_success_succeeds (alternatives : list Validator) (value : Value)
  (r : ValidationResult) :
  first_success validate alternatives value = Some r -> success r = true.
Proof.
  induction alternatives as [|alt rest IH]; cbn; [discriminate|].
  destruct (success (validate alt value)) eqn:Halt; [|exact IH].
  now intros [= <-].
Qed.

Lemma first_success_app (front back : list Validator) (value : Value) :
  first_success validate (front ++ back)%list value
  = match first_success validate front value with
    | Some r => Some r
    | None => first_success validate back value
    end.
Proof.
  induction front as [|alt rest IH]; cbn; [reflexivity|].
  now destruct (success (validate alt value)).
Qed.

Lemma first_success_union (this : Base) (inner rest : list Validator)
  (value : Value) :
  isNullish value = false ->
  first_success validate (UnionValidator this inner :: rest) value
  = first_success validate (inner ++ rest)%list value.
Proof.
  intros Hvalue. rewrite first_success_app. cbn.
  unfold UnionValidator_validate, handleOptional. rewrite Hvalue.
  destruct (first_success validate inner value) as [r|] eqn:Hinner.
  - now rewrite (first_success_succeeds _ _ _ Hinner).
  - reflexivity.
Qed.

(** A union among the alternatives of a union can be replaced by its own
    alternatives, in place: the result is the same on every input, whatever
    the settings of the inner union ([optional()], custom message), which
    the outer union never lets show. *)
Theorem union_of_union_flattens (this inner_base : Base)
  (front inner back : list Validator) (value : Value) :
  validate
    (UnionValidator this
       (front ++ UnionValidator inner_base inner :: back)%list) value
  = validate (UnionValidator this (front ++ inner ++ back)%list) value.
Proof.
  cbn. unfold UnionValidator_validate.
  destruct (handleOptional this value) as [r|] eqn:Hopt; [reflexivity|].
  assert (Hvalue : isNullish value = false).
  { unfold handleOptional in Hopt.
    destruct (isNullish value); [destruct (_optional this)|];
      congruence. }
  rewrite !first_success_app.
  now rewrite (first_success_union inner_base inner back value Hvalue),
    first_success_app.
Qed.

Lemma first_success_ext (f : Validator -> Validator)
  (alternatives : list Validator) (value : Value) :
  (forall alt, validate (f alt) value = validate alt value) ->
  first_success validate (map f alternatives) value
  = first_success validate alternatives value.
Proof.
  intros Hf.
  induction alternatives as [|alt rest IH]; cbn; [reflexivity|].
  rewrite Hf, IH. reflexivity.
Qed.

(** [optional()] on the alternatives of a union has no effect: the union
    answers [null] and [undefined] by itself, before it tries an
    alternative, so a union that is not optional rejects them even when
    every alternative is optional. *)
Theorem union_ignores_optional_alternatives (this : Base)
  (alternatives : list Validator) (value : Value) :
  validate (UnionValidator this (map optional alternatives)) value
  = validate (UnionValidator this alternatives) value.
Proof.
  cbn. unfold UnionValidator_validate.
  destruct (handleOptional this value) as [r|] eqn:Hopt; [reflexivity|].
  assert (Hvalue : isNullish value = false).
  { unfold handleOptional in Hopt.
    destruct (isNullish value); [destruct (_optional this)|];
      congruence. }
  rewrite (first_success_ext optional);
    [reflexivity|].
  intros alt. now apply validate_optional_present.
Qed.

Lemma strict_eq_not_nullish (value : Value) (lit : Literal) :
  strict_eq value lit = true -> isNullish value = false.
Proof. destruct value, lit; cbn; congruence. Qed.

Lemma first_success_literals (lits : list Literal) (value : Value) :
  isNullish value = false ->
  first_success validate (map Schema.literal lits) value
  = if existsb (strict_eq value) lits then Some (createSuccess value)
    else None.
Proof.
  intros Hvalue.
  induction lits as [|lit rest IH]; cbn; [reflexivity|].
  unfold LiteralValidator_validate, handleOptional. rewrite Hvalue.
  destruct (strict_eq value lit); cbn; [reflexivity|exact IH].
Qed.

(** A union of literals is an enumeration: it accepts an input exactly when
    the input is strictly equal ([===]) to one of the literals, and returns
    the input as data; it rejects every other input with the one message of
    the union, and a missing value with "Value is required". *)
Theorem union_of_literals_is_enumeration (lits : list Literal)
  (value : Value) :
  validate (Schema.union (map Schema.literal lits)) value
  = if existsb (strict_eq value) lits then createSuccess value
    else if isNullish value then failure ["Value is required"]
    else failure ["Value does not match any of the allowed types"].
Proof.
  destruct (isNullish value) eqn:Hvalue.
  - rewrite validate_nullish by exact Hvalue. cbn.
    destruct (existsb (strict_eq value) lits) eqn:Hex; [|reflexivity].
    apply existsb_exists in Hex as [lit [_ Heq]].
    apply strict_eq_not_nullish in Heq. congruence.
  - cbn. unfold UnionValidator_validate, handleOptional. rewrite Hvalue.
    rewrite first_success_literals by exact Hvalue.
    now destruct (existsb (strict_eq value) lits).
Qed.

End UnionComposition.

(** ** Bounds *)

Section BoundProperties.
Context {P : Platform}.

Lemma num_lt_of_nat (a b : nat) :
  num_lt (num_of_nat a) (num_of_nat b) = (a <? b)%nat.
Proof.
  unfold num_of_nat, num_of_Z, num_lt, Qcompare.
  cbn [inject_Z Qnum Qden]. rewrite !Z.mul_1_r, Nat2Z.inj_compare.
  destruct (Nat.ltb_spec a b) as [Hlt|Hge].
  - now rewrite (proj2 (Nat.compare_lt_iff a b) Hlt).
  - destruct (a ?= b)%nat eqn:Hcmp; try reflexivity.
    apply Nat.compare_lt_iff in Hcmp. lia.
Qed.

Lemma num_lt_one (n : nat) :
  num_lt (num_of_nat n) (num_of_Z 1) = (n =? 0)%nat.
Proof.
  change (num_of_Z 1) with (num_of_nat 1). rewrite num_lt_of_nat.
  destruct n as [|[|n]]; reflexivity.
Qed.

Lemma length_within_of_nat (n a b : nat) :
  length_within n (Some (num_of_nat a)) (Some (num_of_nat b))
  = ((a <=? n) && (n <=? b))%nat.
Proof.
  unfold length_within, num_gt. rewrite !num_lt_of_nat.
  rewrite !Nat.ltb_antisym, !negb_involutive. reflexivity.
Qed.

Lemma validateLength_within (n : nat) (mn mx : option JSNumber)
  (type : string) :
  match validateLength (num_of_nat n) mn mx type with
  | Some _ => length_within n mn mx = false
  | None => length_within n mn mx = true
  end.
Proof.
  unfold validateLength, length_within.
  destruct mn as [m|], mx as [x|];
    try destruct (num_lt (num_of_nat n) m);
    try destruct (num_gt (num_of_nat n) x); reflexivity.
Qed.

#[local] Arguments validateRange : simpl never.
#[local] Arguments validateLength : simpl never.

(** A number that is not NaN is below the lower bound or above the upper
    bound as soon as the upper bound is below the lower one. *)
Lemma crossed_bounds (n mn mx : JSNumber) :
  num_lt mx mn = true -> isNaN n = false ->
  num_lt n mn || num_gt n mx = true.
Proof.
  unfold num_gt. intros Hcross Hn.
  destruct n as [|[]|q]; [discriminate| | |];
    destruct mn as [|[]|a]; destruct mx as [|[]|b];
    try discriminate; try reflexivity;
    try (cbn; now rewrite orb_true_r).
  destruct (num_lt (Finite q) (Finite a)) eqn:Hqa; [reflexivity|].
  destruct (num_lt (Finite b) (Finite q)) eqn:Hbq; [reflexivity|].
  exfalso.
  apply num_lt_Finite in Hcross.
  assert (Haq : (a <= q)%Q).
  { apply Qnot_lt_le. intros H. apply num_lt_Finite in H. congruence. }
  assert (Hqb : (q <= b)%Q).
  { apply Qnot_lt_le. intros H. apply num_lt_Finite in H. congruence. }
  exact (Qlt_not_le _ _ Hcross (Qle_trans _ _ _ Haq Hqb)).
Qed.

(** Bounds that cross leave nothing to accept.  When [max] is below [min], a
    number validator rejects every number, whatever its other settings, and
    when [maxLength] is below [minLength] a string validator rejects every
    string and an array validator every array, before it looks at a
    character or an element; what such a validator still accepts is [null]
    and [undefined], when it is optional. *)
Theorem crossed_bounds_reject_everything
  (this : Base) (mn mx : JSNumber) (value : Value) :
  num_lt mx mn = true ->
  (forall i p,
     success (validate (NumberValidator this (Some mn) (Some mx) i p) value)
     = isNullish value && _optional this)
  /\ (forall pat,
        success (validate (StringValidator this (Some mn) (Some mx) pat) value)
        = isNullish value && _optional this)
  /\ (forall item,
        success (validate (ArrayValidator this (Some mn) (Some mx) item) value)
        = isNullish value && _optional this).
Proof.
  intros Hcross.
  assert (Hrange : forall n type, isNaN n = false ->
            exists e, validateRange n (Some mn) (Some mx) type = Some e).
  { intros n type Hn. pose proof (crossed_bounds n mn mx Hcross Hn) as H.
    unfold validateRange.
    destruct (num_lt n mn); [eauto|]. cbn in H. rewrite H. eauto. }
  assert (Hlength : forall n type,
            exists e,
              validateLength (num_of_nat n) (Some mn) (Some mx) type = Some e).
  { intros n type.
    pose proof (crossed_bounds (num_of_nat n) mn mx Hcross eq_refl) as H.
    unfold validateLength.
    destruct (num_lt (num_of_nat n) mn); [eauto|]. cbn in H. rewrite H.
    eauto. }
  destruct (isNullish value) eqn:Hvalue.
  - repeat split; intros; rewrite validate_nullish by exact Hvalue; cbn;
      now destruct (_optional this).
  - repeat split; intros;
      destruct value as [| | |n|s|t|items|props|[] id]; try discriminate;
      cbn;
      unfold NumberValidator_validate, StringValidator_validate,
        ArrayValidator_validate, handleOptional, validateType;
      cbn; try reflexivity.
    + destruct (isNaN n) eqn:Hn; [reflexivity|]. cbn.
      destruct (Hrange n "Number" Hn) as [e ->]. reflexivity.
    + destruct (Hlength (String.length s) "String") as [e ->]. reflexivity.
    + destruct (Hlength (List.length items) "Array") as [e ->]. reflexivity.
Qed.

(** A string validator with the bounds [a] and [b] on the length, and with no
    pattern or one without the flags [g] and [y], accepts a string exactly
    when its length is between [a] and [b], both included, and it matches
    the pattern, if one is configured. *)
Theorem string_accepted_iff_within_bounds_and_matching
  (this : Base) (a b : nat) (pat : option RegExp) (s : string) :
  success
    (validate
       (StringValidator this (Some (num_of_nat a)) (Some (num_of_nat b)) pat)
       (VStr s))
  = ((a <=? String.length s) && (String.length s <=? b))%nat
    && pattern_matches pat s.
Proof.
  cbn. unfold StringValidator_validate, handleOptional, validateType. cbn.
  rewrite <- length_within_of_nat.
  pose proof (validateLength_within (String.length s)
                (Some (num_of_nat a)) (Some (num_of_nat b)) "String") as H.
  destruct (validateLength _ _ _ "String"); rewrite H; [reflexivity|].
  destruct pat as [regex|]; cbn; [|reflexivity].
  now destruct (regex s).
Qed.

End BoundProperties.

(** The crossed bounds of [min(10).max(5)], on a number between them, below
    and above, and on a missing value. *)
Lemma crossed_bounds_reject_everything_witness :
  num_lt (num_of_Z 5) (num_of_Z 10) = true
  /\ success (run (max (num_of_Z 5) (min (num_of_Z 10) Schema.number))
                (int 7)) = false
  /\ success (run (max (num_of_Z 5) (min (num_of_Z 10) Schema.number))
                (int 5)) = false
  /\ success (run (optional
                     (max (num_of_Z 5) (min (num_of_Z 10) Schema.number)))
                VNull) = true.
Proof.
  split; [reflexivity|].
  split; [exact (proj1 (@crossed_bounds_reject_everything
                          ExamplePlatform.platform new_Base
                          (num_of_Z 10) (num_of_Z 5) (int 7) eq_refl)
                   false false)|].
  split; [exact (proj1 (@crossed_bounds_reject_everything
                          ExamplePlatform.platform new_Base
                          (num_of_Z 10) (num_of_Z 5) (int 5) eq_refl)
                   false false)|].
  exact (proj1 (@crossed_bounds_reject_everything
                  ExamplePlatform.platform (mkBase true None)
                  (num_of_Z 10) (num_of_Z 5) VNull eq_refl)
           false false).
Defined.

(** ** The shorthands that set a message *)

Section ShorthandProperties.
Context {P : Platform}.

#[local] Arguments validateLength : simpl never.
#[local] Arguments validateDateRange : simpl never.
#[local] Arguments length_within : simpl never.
#[local] Arguments Nat.ltb : simpl never.

Lemma length_within_one (n : nat) (mx : option JSNumber) :
  length_within n (Some (num_of_Z 1)) mx
  = (0 <? n)%nat && length_within n None mx.
Proof.
  unfold length_within. rewrite num_lt_one. now destruct n.
Qed.

(** [nonEmpty()] gives an array validator one answer to everything it rejects
    by itself.  Afterwards the validator accepts an array exactly when it has
    an element, is within [maxLength] and has every element accepted, and an
    earlier [minLength] is forgotten; an empty array, an array above
    [maxLength], a value that is no array and a missing value are all
    reported as "Array cannot be empty", while the errors of the elements are
    reported as before. *)
Theorem nonEmpty_reports_every_own_failure_as_empty
  (this : Base) (mn mx : option JSNumber) (item : Validator) (value : Value) :
  validate (nonEmpty (ArrayValidator this mn mx item)) value =
  if isNullish value
  then if _optional this then createSuccess VUndefined
       else failure ["Array cannot be empty"]
  else
    match value with
    | VArr items =>
        if (0 <? List.length items)%nat
           && length_within (List.length items) None mx
        then validateItems (validate item) items
        else failure ["Array cannot be empty"]
    | _ => failure ["Array cannot be empty"]
    end.
Proof.
  destruct value as [| | |n|s|t|items|props|[] id]; cbn;
    unfold ArrayValidator_validate, handleOptional; cbn;
    try (destruct (_optional this)); try reflexivity.
  all: rewrite <- length_within_one.
  all: pose proof (validateLength_within (List.length items)
                     (Some (num_of_Z 1)) mx "Array") as H.
  all: destruct (validateLength _ _ mx "Array"); rewrite H; try reflexivity.
  all: rewrite validateItems_spec.
  all: now destruct (filter (item_fails item) (entries items)).
Qed.

Lemma string_pattern_message (this : Base) (mn mx : option JSNumber)
  (regex : RegExp) (c : ascii) (m : string) (value : Value) :
  validate
    (StringValidator (mkBase (_optional this) (Some (String c m))) mn mx
       (Some regex)) value =
  if isNullish value
  then if _optional this then createSuccess VUndefined
       else failure [String c m]
  else
    match value with
    | VStr s =>
        if length_within (String.length s) mn mx && regex s
        then createSuccess (VStr s)
        else failure [String c m]
    | _ => failure [String c m]
    end.
Proof.
  destruct value as [| | |n|s|t|items|props|[] id]; cbn;
    unfold StringValidator_validate, handleOptional, validateType; cbn;
    try (destruct (_optional this)); try reflexivity.
  all: pose proof (validateLength_within (String.length s) mn mx "String")
    as H.
  all: destruct (validateLength _ mn mx "String"); rewrite H;
    try reflexivity.
  all: now destruct (regex s).
Qed.

(** [email()] and [url()] replace the pattern of a string validator and give
    it one answer to everything it rejects.  Afterwards the validator accepts
    a string exactly when its length is within the bounds and it matches the
    regular expression of the shorthand, whatever pattern was configured
    before; a string of a wrong length, a value that is no string and a
    missing value are all reported as "Must be a valid email address",
    respectively "Must be a valid URL". *)
Theorem email_and_url_report_every_failure_alike
  (this : Base) (mn mx : option JSNumber) (pat : option RegExp)
  (regex : RegExp) (value : Value) :
  validate (email regex (StringValidator this mn mx pat)) value =
    (if isNullish value
     then if _optional this then createSuccess VUndefined
          else failure ["Must be a valid email address"]
     else
       match value with
       | VStr s =>
           if length_within (String.length s) mn mx && regex s
           then createSuccess (VStr s)
           else failure ["Must be a valid email address"]
       | _ => failure ["Must be a valid email address"]
       end)
  /\ validate (url regex (StringValidator this mn mx pat)) value =
       (if isNullish value
        then if _optional this then createSuccess VUndefined
             else failure ["Must be a valid URL"]
        else
          match value with
          | VStr s =>
              if length_within (String.length s) mn mx && regex s
              then createSuccess (VStr s)
              else failure ["Must be a valid URL"]
          | _ => failure ["Must be a valid URL"]
          end).
Proof.
  split; apply string_pattern_message.
Qed.

Lemma date_window_message (this : Base) (lo hi : Z) (c : ascii) (m : string)
  (value : Value) :
  validate
    (DateValidator (mkBase (_optional this) (Some (String c m)))
       (Some (Some lo)) (Some (Some hi))) value =
  if isNullish value
  then if _optional this then createSuccess VUndefined
       else failure [String c m]
  else
    match new_Date value with
    | Some (Some t) =>
        if ((lo <=? t) && (t <=? hi))%Z
        then createSuccess (VDate (Some t))
        else failure [String c m]
    | _ => failure [String c m]
    end.
Proof.
  assert (Hrange : forall t,
            match validateDateRange (Some (Some lo)) (Some (Some hi)) (Some t)
            with
            | Some _ => ((lo <=? t) && (t <=? hi))%Z = false
            | None => ((lo <=? t) && (t <=? hi))%Z = true
            end).
  { intros t. unfold validateDateRange, date_lt.
    destruct (Z.ltb_spec t lo), (Z.ltb_spec hi t),
      (Z.leb_spec lo t), (Z.leb_spec t hi); cbn; try reflexivity; lia. }
  destruct (isNullish value) eqn:Hvalue.
  - rewrite validate_nullish by exact Hvalue. cbn.
    now destruct (_optional this).
  - cbn. unfold DateValidator_validate, handleOptional. rewrite Hvalue.
    cbn zeta. rewrite parseDate_new_Date.
    destruct (new_Date value) as [[t|]|]; cbn; try reflexivity.
    pose proof (Hrange t) as H.
    destruct (validateDateRange _ _ (Some t)); rewrite H; reflexivity.
Qed.

(** [future()] and [past()] fix a bound at the time they are called, the
    bound itself included, and the one called last names every failure.
    After both, with [lo] the time at the call of [future()] and [hi] the
    time at the call of [past()], a date is accepted exactly when its time is
    between [lo] and [hi], whatever bounds [min] and [max] had set; a date
    that is too early, a date that is too late, an invalid date, a value
    that cannot be a date and a missing value are all reported with the
    message of the shorthand called last. *)
Theorem future_and_past_window
  (this : Base) (mn mx : option (option Z)) (lo hi : Z) (value : Value) :
  validate (past hi (future lo (DateValidator this mn mx))) value =
    (if isNullish value
     then if _optional this then createSuccess VUndefined
          else failure ["Date must be in the past"]
     else
       match new_Date value with
       | Some (Some t) =>
           if ((lo <=? t) && (t <=? hi))%Z
           then createSuccess (VDate (Some t))
           else failure ["Date must be in the past"]
       | _ => failure ["Date must be in the past"]
       end)
  /\ validate (future lo (past hi (DateValidator this mn mx))) value =
       (if isNullish value
        then if _optional this then createSuccess VUndefined
             else failure ["Date must be in the future"]
        else
          match new_Date value with
          | Some (Some t) =>
              if ((lo <=? t) && (t <=? hi))%Z
              then createSuccess (VDate (Some t))
              else failure ["Date must be in the future"]
          | _ => failure ["Date must be in the future"]
          end).
Proof.
  split.
  - change (past hi (future lo (DateValidator this mn mx)))
      with (DateValidator
              (mkBase (_optional this) (Some "Date must be in the past"))
              (Some (Some lo)) (Some (Some hi))).
    apply date_window_message.
  - change (future lo (past hi (DateValidator this mn mx)))
      with (DateValidator
              (mkBase (_optional this) (Some "Date must be in the future"))
              (Some (Some lo)) (Some (Some hi))).
    apply date_window_message.
Qed.

End ShorthandProperties.

(** ** What a result holds *)

Section ResultProperties.
Context {P : Platform}.

#[local] Arguments validateLength : simpl never.
#[local] Arguments validateRange : simpl never.
#[local] Arguments validateDateRange : simpl never.

Ltac unfold_classes :=
  cbn [validate];
  unfold StringValidator_validate, NumberValidator_validate,
    BooleanValidator_validate, DateValidator_validate,
    ArrayValidator_validate, ObjectValidator_validate,
    UnionValidator_validate, LiteralValidator_validate.

Lemma handleOptional_present (this : Base) (value : Value) :
  isNullish value = false -> handleOptional this value = None.
Proof. unfold handleOptional. now intros ->. Qed.

Lemma handleOptional_none (this : Base) (value : Value) :
  handleOptional this value = None -> isNullish value = false.
Proof.
  unfold handleOptional.
  destruct (isNullish value); [destruct (_optional this)|]; congruence.
Qed.

(** The data of a success on an input that is present is the input itself
    for a scalar validator. *)
Lemma scalar_data_present (v : Validator) :
  scalar v = true ->
  forall value,
    isNullish value = false ->
    success (validate v value) = true ->
    validate v value = createSuccess value.
Proof.
  induction v as [b mn mx p|b mn mx i p|b|b mn mx|b mn mx item IH|b schema IH
                 |b alternatives IH|b lit] using Validator_nested_ind;
    intros Hscalar value Hvalue; try discriminate; unfold_classes;
    rewrite (handleOptional_present _ _ Hvalue).
  - unfold validateType.
    destruct value as [| | |n|s|t|items|props|[] id]; try discriminate; cbn;
      try discriminate.
    destruct (validateLength _ mn mx "String"); [discriminate|].
    destruct p as [regex|]; [|reflexivity].
    destruct (regex s); cbn; [reflexivity|discriminate].
  - destruct value as [| | |n|s|t|items|props|[] id]; try discriminate; cbn;
      try discriminate.
    destruct (isNaN n); [discriminate|].
    destruct (validateRange n mn mx "Number"); [discriminate|].
    destruct (i && _); [discriminate|].
    destruct (p && _); [discriminate|reflexivity].
  - unfold validateType.
    destruct value as [| | |n|s|t|items|props|[] id]; try discriminate; cbn;
      try discriminate.
    reflexivity.
  - cbn in Hscalar.
    induction IH as [|alt rest Halt _ IHrest]; cbn; [discriminate|].
    cbn in Hscalar. apply andb_prop in Hscalar as [Hs Hrest].
    destruct (success (validate alt value)) eqn:Hsuccess.
    + intros _. now apply Halt.
    + now apply IHrest.
  - destruct (strict_eq value lit); cbn; [reflexivity|discriminate].
Qed.

(** The validators of strings, numbers, booleans and literals, and the unions
    of them, convert nothing: the data of a success is the input itself, but
    for [null], for which it is [undefined]. *)
Theorem scalar_validators_return_the_input (v : Validator) (value : Value) :
  scalar v = true ->
  success (validate v value) = true ->
  validate v value
  = createSuccess (if isNullish value then VUndefined else value).
Proof.
  intros Hscalar Hsuccess.
  destruct (isNullish value) eqn:Hvalue.
  - rewrite validate_nullish in * by exact Hvalue.
    destruct (_optional (base_of v)); [reflexivity|discriminate].
  - now apply scalar_data_present.
Qed.

(** A success has no errors; the proof follows the validator. *)
Lemma success_has_no_errors (v : Validator) :
  forall value,
    success (validate v value) = true -> errors (validate v value) = None.
Proof.
  induction v as [b mn mx p|b mn mx i p|b|b mn mx|b mn mx item IH|b schema IH
                 |b alternatives IH|b lit] using Validator_nested_ind;
    intros value; unfold_classes;
    (destruct (handleOptional b value) as [r|] eqn:Hopt;
     [unfold handleOptional in Hopt; destruct (isNullish value);
      [destruct (_optional b)|]; try discriminate;
      injection Hopt as <-; cbn; congruence|]).
  - unfold validateType.
    destruct (negb (typeof value =? "string")); [discriminate|].
    destruct (validateLength _ mn mx "String"); [discriminate|].
    destruct p as [regex|]; [|reflexivity].
    destruct (negb (regex _)); [discriminate|reflexivity].
  - destruct (_ || _); [discriminate|].
    destruct (validateRange _ mn mx "Number"); [discriminate|].
    destruct (i && _); [discriminate|].
    destruct (p && _); [discriminate|reflexivity].
  - unfold validateType.
    destruct (negb (typeof value =? "boolean")); [discriminate|reflexivity].
  - cbn zeta. rewrite parseDate_new_Date.
    destruct (new_Date value) as [[t|]|]; cbn; try discriminate.
    destruct (validateDateRange mn mx (Some t)); [discriminate|reflexivity].
  - destruct (negb (Array_isArray value)); [discriminate|].
    destruct (validateLength _ mn mx "Array"); [discriminate|].
    cbn zeta.
    destruct (success (validateItems (validate item) (as_array value)))
      eqn:Hitems; cbn; [reflexivity|congruence].
  - destruct (_ || _); [discriminate|].
    cbn zeta.
    destruct (success (validateFields validate schema value)) eqn:Hfields;
      cbn; [reflexivity|congruence].
  - induction IH as [|alt rest Halt _ IHrest]; cbn; [discriminate|].
    destruct (success (validate alt value)) eqn:Hsuccess; [|exact IHrest].
    intros _. now apply Halt.
  - destruct (negb (strict_eq value lit)); [discriminate|reflexivity].
Qed.

Lemma first_success_no_errors (alternatives : list Validator) (value : Value)
  (r : ValidationResult) :
  first_success validate alternatives value = Some r -> errors r = None.
Proof.
  induction alternatives as [|alt rest IH]; cbn; [discriminate|].
  destruct (success (validate alt value)) eqn:Hsuccess; [|exact IH].
  intros [= <-]. now apply success_has_no_errors.
Qed.

Lemma filter_length_le {A : Type} (f : A -> bool) (l : list A) :
  (List.length (filter f l) <= List.length l)%nat.
Proof.
  induction l as [|x rest IH]; cbn; [lia|].
  destruct (f x); cbn; lia.
Qed.

Lemma entries_length (array : list Value) :
  List.length (entries array) = List.length array.
Proof.
  unfold entries, entries_from.
  rewrite length_combine, length_seq. lia.
Qed.

(** The number of errors of a failure.  An array validator reports at most
    one error for each element of the array and an object validator at most
    one for each declared field, however many errors the children found; a
    validator of any other class, a union included, reports exactly one;
    and no failure is without an error. *)
Ltac one_error :=
  intros [= <-]; cbn [List.length]; split;
  [lia | first [reflexivity | apply Nat.le_max_l]].

Theorem number_of_errors (v : Validator) (value : Value)
  (errs : list string) :
  errors (validate v value) = Some errs ->
  (1 <= List.length errs)%nat
  /\ match v with
     | ArrayValidator _ _ _ _ =>
         (List.length errs <= Nat.max 1 (List.length (as_array value)))%nat
     | ObjectValidator _ schema =>
         (List.length errs <= Nat.max 1 (List.length schema))%nat
     | _ => List.length errs = 1%nat
     end.
Proof.
  destruct v as [b mn mx p|b mn mx i p|b|b mn mx|b mn mx item|b schema
                |b alternatives|b lit]; unfold_classes;
    (destruct (handleOptional b value) as [r|] eqn:Hopt;
     [unfold handleOptional in Hopt; destruct (isNullish value);
      [destruct (_optional b)|]; try discriminate;
      injection Hopt as <-; cbn [errors createError createSuccess];
      try discriminate; one_error|]).
  - unfold validateType.
    destruct (negb (typeof value =? "string"));
      [one_error|].
    destruct (validateLength _ mn mx "String");
      [one_error|].
    destruct p as [regex|]; [|discriminate].
    destruct (negb (regex _)); [one_error|discriminate].
  - destruct (_ || _); [one_error|].
    destruct (validateRange _ mn mx "Number"); [one_error|].
    destruct (i && _); [one_error|].
    destruct (p && _); [one_error|discriminate].
  - unfold validateType.
    destruct (negb (typeof value =? "boolean"));
      [one_error|discriminate].
  - cbn zeta. rewrite parseDate_new_Date.
    destruct (new_Date value) as [[t|]|]; cbn;
      try one_error.
    destruct (validateDateRange mn mx (Some t));
      [one_error|discriminate].
  - destruct (negb (Array_isArray value)); [one_error|].
    destruct (validateLength _ mn mx "Array"); [one_error|].
    cbn zeta. rewrite validateItems_spec.
    destruct (filter (item_fails item) (entries (as_array value)))
      as [|ix failing] eqn:Hfailing; [discriminate|].
    pose proof (filter_length_le (item_fails item)
                  (entries (as_array value))) as Hle.
    rewrite entries_length, Hfailing in Hle.
    cbn [negb success failure]. intros [= <-].
    cbn [List.length map] in *. rewrite length_map. split; [lia|].
    etransitivity; [exact Hle|apply Nat.le_max_r].
  - destruct (_ || _); [one_error|].
    cbn zeta. unfold validateFields.
    rewrite validateFields_loop_spec. cbn [app].
    destruct (filter (field_fails value) schema) as [|kv failing] eqn:Hfailing;
      [discriminate|].
    pose proof (filter_length_le (field_fails value) schema) as Hle.
    rewrite Hfailing in Hle.
    cbn [map List.length Nat.ltb Nat.leb negb success]. intros [= <-].
    cbn [List.length map] in *. rewrite length_map. split; [lia|].
    etransitivity; [exact Hle|apply Nat.le_max_r].
  - destruct (first_success validate alternatives value) as [r|] eqn:Hfirst.
    + rewrite (first_success_no_errors _ _ _ Hfirst). discriminate.
    + one_error.
  - destruct (negb (strict_eq value lit));
      [one_error|discriminate].
Qed.

End ResultProperties.

(** The validators of the design document's union example return the string
    they were given. *)
Lemma scalar_validators_return_the_input_witness :
  scalar (Schema.union [Schema.literal (LStr "x"); Schema.string]) = true
  /\ success (run (Schema.union [Schema.literal (LStr "x"); Schema.string])
                (VStr "y")) = true
  /\ run (Schema.union [Schema.literal (LStr "x"); Schema.string]) (VStr "y")
     = createSuccess (VStr "y").
Proof.
  split; [reflexivity|]. split; [reflexivity|].
  exact (@scalar_validators_return_the_input ExamplePlatform.platform
           (Schema.union [Schema.literal (LStr "x"); Schema.string])
           (VStr "y") eq_refl eq_refl).
Defined.

(** An array of three elements, two of them rejected, one of these with two
    errors of its own: two errors. *)
Lemma number_of_errors_witness :
  errors (run (Schema.array (Schema.array Schema.string))
            (VArr [VArr [int 1; int 2]; VArr []; int 3]))
  = Some ["Item at index 0: Item at index 0: Value must be a string, Item at index 1: Value must be a string";
          "Item at index 2: Value must be an array"]
  /\ (1 <= 2 <= Nat.max 1 3)%nat.
Proof.
  split; [reflexivity|].
  pose proof (@number_of_errors ExamplePlatform.platform
                (Schema.array (Schema.array Schema.string))
                (VArr [VArr [int 1; int 2]; VArr []; int 3]) _ eq_refl)
    as [Hlow Hhigh].
  exact (conj Hlow Hhigh).
Defined.

(** ** Objects: the properties of the input and the validated object *)

Section PropertyLookup.

Lemma own_property_In (props : list (string * Value)) (key : string)
  (v : Value) :
  NoDup (map fst props) -> In (key, v) props ->
  own_property props key = Some v.
Proof.
  induction props as [|[k w] rest IH]; cbn; intros Hnd Hin; [contradiction|].
  inversion Hnd as [|? ? Hfresh Hrest]; subst.
  destruct Hin as [[= -> ->]|Hin].
  - now rewrite String.eqb_refl.
  - destruct (String.eqb_spec k key) as [->|Hne]; [|now apply IH].
    exfalso. apply Hfresh. exact (in_map fst _ _ Hin).
Qed.

Lemma own_property_absent (props : list (string * Value)) (key : string) :
  ~ In key (map fst props) -> own_property props key = None.
Proof.
  induction props as [|[k w] rest IH]; cbn; intros Habsent; [reflexivity|].
  destruct (String.eqb_spec k key) as [->|Hne].
  - exfalso. apply Habsent. now left.
  - apply IH. intros Hin. apply Habsent. now right.
Qed.

Lemma own_property_permutation (props props' : list (string * Value))
  (key : string) :
  NoDup (map fst props) -> Permutation props props' ->
  own_property props' key = own_property props key.
Proof.
  intros Hnd Hperm.
  assert (Hnd' : NoDup (map fst props')).
  { exact (Permutation_NoDup (Permutation_map fst Hperm) Hnd). }
  destruct (in_dec string_dec key (map fst props)) as [Hin|Habsent].
  - apply in_map_iff in Hin as [[k v] [Hk Hin]]. cbn in Hk. subst k.
    rewrite (own_property_In props key v Hnd Hin).
    apply own_property_In; [exact Hnd'|].
    exact (Permutation_in _ Hperm Hin).
  - rewrite (own_property_absent props key Habsent).
    apply own_property_absent. intros Hin. apply Habsent.
    exact (Permutation_in _ (Permutation_sym (Permutation_map fst Hperm)) Hin).
Qed.

Lemma distinct_NoDup (keys : list string) :
  distinct keys = true -> NoDup keys.
Proof.
  induction keys as [|key rest IH]; cbn; intros H; [constructor|].
  apply andb_prop in H as [Hfresh Hrest].
  constructor; [|now apply IH].
  intros Hin.
  assert (Hex : existsb (String.eqb key) rest = true).
  { apply existsb_exists. exists key. split; [exact Hin|].
    apply String.eqb_refl. }
  rewrite Hex in Hfresh. discriminate.
Qed.

End PropertyLookup.

Section ObjectInput.
Context {P : Platform}.

(** The order in which the input object holds its properties has no effect on
    the result: two objects with the same properties in any two orders get
    the same data, or the same errors in the same order, which is the order
    of the schema. *)
Theorem object_ignores_property_order
  (this : Base) (schema : list (string * Validator))
  (props props' : list (string * Value)) :
  NoDup (map fst props) ->
  Permutation props props' ->
  validate (ObjectValidator this schema) (VObj props')
  = validate (ObjectValidator this schema) (VObj props).
Proof.
  intros Hnd Hperm.
  rewrite !ObjectValidator_validate_object by reflexivity.
  unfold validateFields.
  rewrite (validateFields_loop_ext (VObj props) (VObj props') schema);
    [reflexivity|].
  intros key _. cbn.
  now rewrite (own_property_permutation props props' key Hnd Hperm).
Qed.

End ObjectInput.

(** Two orders of the properties of one input. *)
Lemma object_ignores_property_order_witness :
  NoDup (map fst [("a", int 1); ("b", VStr "x")])
  /\ Permutation [("a", int 1); ("b", VStr "x")] [("b", VStr "x"); ("a", int 1)]
  /\ run (Schema.object [("a", Schema.string); ("b", Schema.number)])
       (VObj [("b", VStr "x"); ("a", int 1)])
     = run (Schema.object [("a", Schema.string); ("b", Schema.number)])
         (VObj [("a", int 1); ("b", VStr "x")]).
Proof.
  assert (Hnd : NoDup (map fst [("a", int 1); ("b", VStr "x")])).
  { cbn. repeat constructor; cbn; intuition discriminate. }
  assert (Hperm : Permutation [("a", int 1); ("b", VStr "x")]
                    [("b", VStr "x"); ("a", int 1)]).
  { apply perm_swap. }
  split; [exact Hnd|]. split; [exact Hperm|].
  exact (@object_ignores_property_order ExamplePlatform.platform new_Base
           [("a", Schema.string); ("b", Schema.number)] _ _ Hnd Hperm).
Defined.

(** ** Validating validated data *)

Section Revalidation.
Context {P : Platform}.

#[local] Arguments validateLength : simpl never.
#[local] Arguments validateRange : simpl never.
#[local] Arguments validateDateRange : simpl never.

Ltac unfold_classes :=
  cbn [validate];
  unfold StringValidator_validate, NumberValidator_validate,
    BooleanValidator_validate, DateValidator_validate,
    ArrayValidator_validate, ObjectValidator_validate,
    UnionValidator_validate, LiteralValidator_validate.

Lemma no_item_fails (item : Validator) (array : list Value) :
  forall i,
    filter (item_fails item) (entries_from i array) = [] <->
    forallb (item_accepted item) array = true.
Proof.
  unfold entries_from, item_accepted.
  induction array as [|x rest IH]; intros i; cbn; [tauto|].
  unfold item_fails at 1. cbn.
  destruct (success (validate item x)); cbn; [apply IH|].
  split; discriminate.
Qed.

Lemma ArrayValidator_validate_array (this : Base) (mn mx : option JSNumber)
  (item : Validator) (items : list Value) :
  validate (ArrayValidator this mn mx item) (VArr items) =
  match validateLength (num_of_nat (List.length items)) mn mx "Array" with
  | Some lengthError => createError this lengthError
  | None =>
      if forallb (item_accepted item) items
      then createSuccess (VArr (map (item_data item) items))
      else validateItems (validate item) items
  end.
Proof.
  unfold_classes. cbn.
  destruct (validateLength _ mn mx "Array"); [reflexivity|].
  rewrite validateItems_spec.
  pose proof (no_item_fails item items 0) as Hiff. fold (entries items) in Hiff.
  destruct (filter (item_fails item) (entries items)) as [|ix failing].
  - now rewrite (proj1 Hiff eq_refl).
  - destruct (forallb (item_accepted item) items) eqn:Hall; [|reflexivity].
    discriminate (proj2 Hiff eq_refl).
Qed.

Lemma validateItems_fails (item : Validator) (items : list Value) :
  forallb (item_accepted item) items = false ->
  success (validateItems (validate item) items) = false.
Proof.
  intros Hsome. rewrite validateItems_spec.
  pose proof (no_item_fails item items 0) as Hiff. fold (entries items) in Hiff.
  destruct (filter (item_fails item) (entries items)); [|reflexivity].
  rewrite (proj1 Hiff eq_refl) in Hsome. discriminate.
Qed.

(** What a read finds on the validated object under a declared key. *)
Lemma get_validated (obj : Value) (schema : list (string * Validator))
  (kv : string * Validator) :
  NoDup (map fst schema) -> In kv schema ->
  get_property
    (VObj (map (field_value obj) (filter (field_kept obj) schema))) (fst kv)
  = if field_kept obj kv then data_of (field_result obj kv)
    else Object_prototype (fst kv).
Proof.
  intros Hnd Hin. cbn [get_property].
  assert (Hkeys : map fst (map (field_value obj)
                             (filter (field_kept obj) schema))
                  = map fst (filter (field_kept obj) schema)).
  { rewrite map_map. reflexivity. }
  destruct (field_kept obj kv) eqn:Hkept.
  - rewrite (own_property_In _ (fst kv) (data_of (field_result obj kv)));
      [reflexivity| |].
    + rewrite Hkeys. now apply NoDup_keys_filter.
    + apply (in_map (field_value obj)). apply filter_In. now split.
  - rewrite own_property_absent; [reflexivity|].
    rewrite Hkeys. intros Habs.
    apply in_map_iff in Habs as [kv' [Hkey Hin']].
    apply filter_In in Hin' as [Hin' Hkept'].
    assert (kv' = kv); [|congruence].
    clear - Hnd Hin Hin' Hkey.
    induction schema as [|e rest IH]; [contradiction|].
    cbn in Hnd. inversion Hnd as [|? ? Hfresh Hrest]; subst.
    destruct Hin as [->|Hin], Hin' as [->|Hin'].
    + reflexivity.
    + exfalso. apply Hfresh. rewrite <- Hkey. now apply in_map.
    + exfalso. apply Hfresh. rewrite Hkey. now apply in_map.
    + now apply IH.
Qed.

Lemma no_field_fails (obj : Value) (schema : list (string * Validator)) :
  filter (field_fails obj) schema = [] <->
  (forall kv, In kv schema -> success (field_result obj kv) = true).
Proof.
  induction schema as [|e rest IH]; cbn; [tauto|].
  unfold field_fails at 1.
  destruct (success (field_result obj e)) eqn:He; cbn.
  - rewrite IH. split; [intros H kv [<-|Hin]; auto|auto].
  - split; [discriminate|]. intros H. rewrite (H e) in He by now left.
    discriminate.
Qed.

Lemma first_success_accepting (alternatives : list Validator)
  (alt : Validator) (value : Value) :
  In alt alternatives -> success (validate alt value) = true ->
  exists r, first_success validate alternatives value = Some r.
Proof.
  induction alternatives as [|a rest IH]; cbn; [contradiction|].
  intros [->|Hin] Halt.
  - rewrite Halt. eauto.
  - destruct (success (validate a value)); eauto.
Qed.

Lemma first_success_from (alternatives : list Validator) (value : Value)
  (r : ValidationResult) :
  first_success validate alternatives value = Some r ->
  exists alt, In alt alternatives /\ r = validate alt value
              /\ success r = true.
Proof.
  induction alternatives as [|a rest IH]; cbn; [discriminate|].
  destruct (success (validate a value)) eqn:Ha.
  - intros [= <-]. exists a. auto.
  - intros Hrest. destruct (IH Hrest) as [alt [Hin Halt]]. exists alt. auto.
Qed.

(** On an input that is present the data of a success is present too. *)
Lemma data_present (v : Validator) :
  forall value,
    isNullish value = false ->
    success (validate v value) = true ->
    isNullish (data_of (validate v value)) = false.
Proof.
  induction v as [b mn mx p|b mn mx i p|b|b mn mx|b mn mx item IH|b schema IH
                 |b alternatives IH|b lit] using Validator_nested_ind;
    intros value Hvalue.
  1-3, 8: intros Hsuccess;
    rewrite scalar_data_present by (try reflexivity; assumption);
    exact Hvalue.
  - unfold_classes. rewrite (handleOptional_present _ _ Hvalue). cbn zeta.
    rewrite parseDate_new_Date.
    destruct (new_Date value) as [[t|]|]; cbn; try discriminate.
    now destruct (validateDateRange mn mx (Some t)).
  - destruct value as [| | |n|s|t|items|props|[] id];
      try (unfold_classes; cbn; discriminate).
    rewrite ArrayValidator_validate_array.
    destruct (validateLength _ mn mx "Array"); [discriminate|].
    destruct (forallb (item_accepted item) items) eqn:Hall; [reflexivity|].
    now rewrite (validateItems_fails _ _ Hall).
  - unfold_classes. rewrite (handleOptional_present _ _ Hvalue).
    destruct (_ || _); [discriminate|]. cbn zeta.
    unfold validateFields.
    destruct (validateFields_loop validate schema value [] [])
      as [validatedObj [|e rest]]; cbn; [reflexivity|discriminate].
  - unfold_classes. rewrite (handleOptional_present _ _ Hvalue).
    destruct (first_success validate alternatives value) as [r|] eqn:Hfirst;
      [|discriminate].
    destruct (first_success_from _ _ _ Hfirst) as [alt [Hin [-> Halt]]].
    intros _. rewrite Forall_forall in IH. now apply IH.
Qed.

Lemma revalidate_nullish (v : Validator) (value : Value) :
  isNullish value = true ->
  success (validate v value) = true ->
  validate v (data_of (validate v value)) = validate v value.
Proof.
  intros Hvalue. rewrite (validate_nullish v value Hvalue).
  destruct (_optional (base_of v)) eqn:Hopt; [|discriminate].
  intros _. cbn. rewrite validate_nullish by reflexivity. now rewrite Hopt.
Qed.

(** Both statements at once: validated data is accepted, and returned as it
    is when no union is involved. *)
Lemma revalidate (v : Validator) :
  plain_keys v = true ->
  forall value,
    success (validate v value) = true ->
    success (validate v (data_of (validate v value))) = true
    /\ (union_free v = true ->
        validate v (data_of (validate v value)) = validate v value).
Proof.
  induction v as [b mn mx p|b mn mx i p|b|b mn mx|b mn mx item IH|b schema IH
                 |b alternatives IH|b lit] using Validator_nested_ind;
    intros Hkeys value Hsuccess;
    (destruct (isNullish value) eqn:Hvalue;
     [rewrite revalidate_nullish by assumption; auto|]).
  1-3, 8:
    match type of Hsuccess with
    | success (validate ?v _) = true =>
        pose proof (scalar_data_present v eq_refl value Hvalue Hsuccess)
          as Hdata
    end;
    rewrite Hdata; cbn [data_of data createSuccess]; rewrite Hdata; auto.
  - (* dates *)
    revert Hsuccess. unfold_classes.
    rewrite (handleOptional_present _ _ Hvalue). cbn zeta.
    rewrite parseDate_new_Date.
    destruct (new_Date value) as [[t|]|]; cbn; try discriminate.
    destruct (validateDateRange mn mx (Some t)) eqn:Hrange; [discriminate|].
    cbn. rewrite Hrange. auto.
  - (* arrays *)
    destruct value as [| | |n|s|t|items|props|[] id];
      try (revert Hsuccess; unfold_classes; cbn; discriminate).
    revert Hsuccess. rewrite ArrayValidator_validate_array.
    destruct (validateLength _ mn mx "Array") eqn:Hlength; [discriminate|].
    destruct (forallb (item_accepted item) items) eqn:Hall;
      [|now rewrite (validateItems_fails _ _ Hall)].
    intros _. cbn [data_of data createSuccess].
    rewrite ArrayValidator_validate_array, length_map, Hlength.
    cbn in Hkeys.
    assert (Hagain : forallb (item_accepted item) (map (item_data item) items)
                     = true).
    { rewrite forallb_forall in *. intros d Hd.
      apply in_map_iff in Hd as [x [<- Hx]].
      exact (proj1 (IH Hkeys x (Hall x Hx))). }
    rewrite Hagain. split; [reflexivity|].
    intros Hfree. cbn in Hfree. do 2 f_equal.
    rewrite map_map. apply map_ext_in. intros x Hx.
    rewrite forallb_forall in Hall. unfold item_data.
    now rewrite (proj2 (IH Hkeys x (Hall x Hx)) Hfree).
  - (* objects *)
    cbn in Hkeys. apply andb_prop in Hkeys as [Hschema Hkeys].
    apply andb_prop in Hschema as [Hdistinct Hplain].
    apply distinct_NoDup in Hdistinct. rewrite forallb_forall in Hplain.
    assert (Hproto : ~ In "__proto__" (map fst schema)).
    { intros Hin. specialize (Hplain _ Hin). discriminate. }
    assert (Hobj : is_object value = true).
    { revert Hsuccess. unfold_classes.
      rewrite (handleOptional_present _ _ Hvalue). unfold is_object.
      rewrite Hvalue.
      destruct (typeof value =? "object"), (Array_isArray value);
        cbn; congruence. }
    revert Hsuccess.
    rewrite (ObjectValidator_validate_object b schema value Hobj).
    rewrite (validateFields_spec value schema Hdistinct Hproto).
    destruct (filter (field_fails value) schema) as [|e failing] eqn:Hnone;
      [|discriminate].
    intros _. cbn [data_of data createSuccess].
    set (validated := VObj (map (field_value value)
                              (filter (field_kept value) schema))).
    rewrite (ObjectValidator_validate_object b schema validated eq_refl).
    rewrite (validateFields_spec validated schema Hdistinct Hproto).
    pose proof (proj1 (no_field_fails value schema) Hnone) as Hall.
    rewrite Forall_forall in IH. rewrite forallb_forall in Hkeys.
    assert (Hfield : forall kv, In kv schema ->
              field_result validated kv
              = validate (snd kv) (data_of (field_result value kv))).
    { intros kv Hin. unfold field_result at 1. unfold validated.
      rewrite (get_validated value schema kv Hdistinct Hin).
      unfold field_kept. rewrite (Hall kv Hin). cbn [andb].
      destruct (is_defined (data_of (field_result value kv))) eqn:Hdefined;
        [reflexivity|].
      pose proof (Hplain (fst kv) (in_map fst _ _ Hin)) as Hkey.
      apply andb_prop in Hkey as [_ Hkey].
      destruct (Object_prototype (fst kv)); try discriminate.
      now destruct (data_of (field_result value kv)). }
    assert (Hagain : forall kv, In kv schema ->
              success (field_result validated kv) = true).
    { intros kv Hin. rewrite (Hfield kv Hin).
      exact (proj1 (IH kv Hin (Hkeys kv Hin) _ (Hall kv Hin))). }
    rewrite (proj2 (no_field_fails validated schema) Hagain).
    split; [reflexivity|].
    intros Hfree. cbn in Hfree. rewrite forallb_forall in Hfree.
    assert (Hsame : forall kv, In kv schema ->
              field_result validated kv = field_result value kv).
    { intros kv Hin. rewrite (Hfield kv Hin).
      exact (proj2 (IH kv Hin (Hkeys kv Hin) _ (Hall kv Hin))
               (Hfree kv Hin)). }
    rewrite (filter_ext_in (field_kept validated) (field_kept value));
      [|intros kv Hin; unfold field_kept; now rewrite (Hsame kv Hin)].
    rewrite (map_ext_in (field_value validated) (field_value value));
      [reflexivity|].
    intros kv Hin. apply filter_In in Hin as [Hin _].
    unfold field_value. now rewrite (Hsame kv Hin).
  - (* unions *)
    split; [|discriminate].
    revert Hsuccess. unfold_classes.
    rewrite (handleOptional_present _ _ Hvalue).
    destruct (first_success validate alternatives value) as [r|] eqn:Hfirst;
      [|discriminate].
    destruct (first_success_from _ _ _ Hfirst) as [alt [Hin [-> Halt]]].
    intros _.
    rewrite (handleOptional_present _ _ (data_present alt value Hvalue Halt)).
    cbn in Hkeys. rewrite forallb_forall in Hkeys. rewrite Forall_forall in IH.
    destruct (first_success_accepting alternatives alt
                (data_of (validate alt value)) Hin
                (proj1 (IH alt Hin (Hkeys alt Hin) value Halt)))
      as [r' Hr'].
    rewrite Hr'. exact (first_success_succeeds _ _ _ Hr').
Qed.

(** What a validator returns as data it accepts as input: validating the data
    of a success succeeds again, for every input and every validator whose
    schemas have plain keys, which an object reads back as they were
    written. *)
Theorem validated_data_is_accepted (v : Validator) (value : Value) :
  plain_keys v = true ->
  success (validate v value) = true ->
  success (validate v (data_of (validate v value))) = true.
Proof.
  intros Hkeys Hsuccess. exact (proj1 (revalidate v Hkeys value Hsuccess)).
Qed.

(** Validation is idempotent where no union is involved and the schemas have
    plain keys: validating the data of a success returns that same data.  A
    date converted from a string stays the date, an omitted optional field
    stays omitted, and an undeclared property, once dropped, is not
    missed. *)
Theorem validation_is_idempotent_without_unions
  (v : Validator) (value : Value) :
  plain_keys v = true ->
  union_free v = true ->
  success (validate v value) = true ->
  validate v (data_of (validate v value)) = validate v value.
Proof.
  intros Hkeys Hfree Hsuccess.
  exact (proj2 (revalidate v Hkeys value Hsuccess) Hfree).
Qed.

End Revalidation.

(** The data of the design document's date, under a union and under an
    object with an optional field and an undeclared property. *)
Lemma validated_data_is_accepted_witness :
  @plain_keys ExamplePlatform.platform
    (Schema.union [Schema.number; Schema.date]) = true
  /\ run (Schema.union [Schema.number; Schema.date]) (VStr "2023-01-01")
     = createSuccess (VDate (Some 1672531200000%Z))
  /\ success (run (Schema.union [Schema.number; Schema.date])
                (VDate (Some 1672531200000%Z))) = true.
Proof.
  split; [reflexivity|]. split; [reflexivity|].
  exact (@validated_data_is_accepted ExamplePlatform.platform
           (Schema.union [Schema.number; Schema.date])
           (VStr "2023-01-01") eq_refl eq_refl).
Defined.

Lemma validation_is_idempotent_without_unions_witness :
  let v := Schema.object [("when", Schema.date);
                          ("note", optional Schema.string)] in
  let value := VObj [("extra", int 1); ("when", VStr "2023-01-01")] in
  let validated := VObj [("when", VDate (Some 1672531200000%Z))] in
  @plain_keys ExamplePlatform.platform v = true
  /\ union_free v = true
  /\ run v value = createSuccess validated
  /\ run v validated = createSuccess validated.
Proof.
  cbv zeta. split; [reflexivity|]. split; [reflexivity|].
  split; [reflexivity|].
  exact (@validation_is_idempotent_without_unions ExamplePlatform.platform
           (Schema.object [("when", Schema.date);
                           ("note", optional Schema.string)])
           (VObj [("extra", int 1); ("when", VStr "2023-01-01")])
           eq_refl eq_refl eq_refl).
Defined.

(** A key that is not plain spoils it: the optional field "constructor",
    omitted on [null], is read back from the validated object as the function
    that [Object.prototype] holds under that name.  And the field "__proto__"
    is read but never stored. *)
Lemma inherited_key_is_read_back :
  run (Schema.object [("constructor", optional Schema.string)])
    (VObj [("constructor", VNull)])
  = createSuccess (VObj [])
  /\ run (Schema.object [("constructor", optional Schema.string)]) (VObj [])
     = failure ["Field 'constructor': Value must be a string"]
  /\ run (Schema.object [("__proto__", Schema.string)])
       (VObj [("__proto__", VStr "x")])
     = createSuccess (VObj []).
Proof. repeat split. Qed.

(** With a union the data may change when it is validated again: the date
    that the second alternative made of a string is an object, which the
    first alternative accepts. *)
Lemma union_revalidation_changes_data :
  run (Schema.union [Schema.object []; Schema.date]) (VStr "2023-01-01")
  = createSuccess (VDate (Some 1672531200000%Z))
  /\ run (Schema.union [Schema.object []; Schema.date])
       (VDate (Some 1672531200000%Z))
     = createSuccess (VObj []).
Proof. split; reflexivity. Qed.

(** ** Growing a union *)

Section UnionGrowth.
Context {P : Platform}.

Lemma UnionValidator_success_inv (this : Base)
  (alternatives : list Validator) (value : Value) :
  isNullish value = false ->
  success (validate (UnionValidator this alternatives) value) = true ->
  exists r, first_success validate alternatives value = Some r
            /\ validate (UnionValidator this alternatives) value = r.
Proof.
  intros Hvalue. cbn. unfold UnionValidator_validate.
  rewrite (handleOptional_present _ _ Hvalue).
  destruct (first_success validate alternatives value) as [r|];
    [eauto|discriminate].
Qed.

(** A union keeps what it accepted when it is given more alternatives.  With
    alternatives added at the end every success stays as it was, data
    included; with alternatives added in front the input is still accepted,
    though an added alternative may now give the data. *)
Theorem union_growth_keeps_successes (this : Base)
  (alternatives more : list Validator) (value : Value) :
  success (validate (UnionValidator this alternatives) value) = true ->
  validate (UnionValidator this (alternatives ++ more)%list) value
  = validate (UnionValidator this alternatives) value
  /\ success (validate (UnionValidator this (more ++ alternatives)%list) value)
     = true.
Proof.
  intros Hsuccess.
  destruct (isNullish value) eqn:Hvalue.
  - rewrite !validate_nullish in * by exact Hvalue. auto.
  - destruct (UnionValidator_success_inv _ _ _ Hvalue Hsuccess)
      as [r [Hfirst Hr]].
    rewrite Hr. cbn. unfold UnionValidator_validate.
    rewrite (handleOptional_present _ _ Hvalue), !first_success_app, Hfirst.
    split; [reflexivity|].
    destruct (first_success validate more value) as [r'|] eqn:Hmore.
    + exact (first_success_succeeds _ _ _ Hmore).
    + exact (first_success_succeeds _ _ _ Hfirst).
Qed.

End UnionGrowth.

(** A union of one alternative accepts a string, and still does with a
    number validator after it or before it. *)
Lemma union_growth_keeps_successes_witness :
  success (run (Schema.union [Schema.string]) (VStr "x")) = true
  /\ run (Schema.union [Schema.string; Schema.number]) (VStr "x")
     = run (Schema.union [Schema.string]) (VStr "x")
  /\ success (run (Schema.union [Schema.number; Schema.string]) (VStr "x"))
     = true.
Proof.
  split; [reflexivity|].
  exact (@union_growth_keeps_successes ExamplePlatform.platform new_Base
           [Schema.string] [Schema.number] (VStr "x") eq_refl).
Defined.
